(** * The drug-repurposing notebook: its data preparation functions

    A shallow embedding of [get_target_activity], [create_training_data],
    [canon_smiles], [download_drug_repurposing_hub] and
    [visualize_top_predictions] of [drug-repurposing.ipynb].

    Tables are lists of typed rows, one record per pandas schema, with the
    column names of the notebook.  A missing cell of an object column is
    [None]; a missing cell of a [float64] column is the IEEE NaN itself, as
    in pandas.  Floats are the kernel's binary64 numbers.  A call that can
    raise returns a [Py.result].  What the notebook leaves to a library or
    to a remote service (the group mean of pandas, its sorting routine, the
    RDKit parser, writer and grid renderer, the ChEMBL service, the
    download) is a section variable of the function that uses it. *)

From Stdlib Require Import Floats ZArith String Ascii List Bool Lia.
From Stdlib Require Import Permutation Sorted.
Import ListNotations.

Open Scope string_scope.
Open Scope list_scope.

(** ** Python outcomes *)

Module Py.

(** The exception classes the notebook's calls can raise.  [TypeError]
    is what an operation raises on a value of the wrong type: the RDKit
    parser on an argument that is no string (its argument error is a
    [TypeError]), a subscript on [None]. *)
Inductive exn : Type :=
| KeyError
| ValueError
| ZeroDivisionError
| TypeError
| FileNotFoundError
| HTTPError.

Inductive result (A : Type) : Type :=
| Ok (a : A)
| Raise (e : exn).

Arguments Ok {A} a.
Arguments Raise {A} e.

Definition bind {A B : Type} (r : result A) (k : A -> result B) : result B :=
  match r with
  | Ok a => k a
  | Raise e => Raise e
  end.

End Py.

Import Py.

Notation "x <- c1 ;; c2" := (Py.bind c1 (fun x => c2))
  (at level 61, c1 at next level, right associativity).

(** ** Scalars: Python numbers and NumPy scalars

    [Series.sum()] of an [int64] column is a NumPy [int64] scalar, [len] is
    a Python [int].  The two families divide differently: Python raises
    [ZeroDivisionError] on a zero divisor, NumPy (default error state)
    performs the IEEE division and only warns.  Python integers that meet
    a NumPy scalar are taken to fit in 64 bits, as the literals and lengths
    of the notebook do. *)

Module Num.

Inductive number : Type :=
| PyInt (z : Z)
| PyFloat (x : float)
| NpInt64 (z : Z)
| NpFloat64 (x : float).

(** Two's-complement wrap-around of 64-bit integer arithmetic. *)
Definition wrap64 (z : Z) : Z :=
  ((z + 2 ^ 63) mod 2 ^ 64 - 2 ^ 63)%Z.

(** Conversion of an integer to binary64, rounding to nearest even. *)
Definition float_of_Z (z : Z) : float :=
  SF2Prim (binary_normalize prec emax z 0 false).

Definition to_float (a : number) : float :=
  match a with
  | PyInt z | NpInt64 z => float_of_Z z
  | PyFloat x | NpFloat64 x => x
  end.

Definition is_numpy (a : number) : bool :=
  match a with
  | NpInt64 _ | NpFloat64 _ => true
  | PyInt _ | PyFloat _ => false
  end.

Definition is_integer (a : number) : bool :=
  match a with
  | PyInt _ | NpInt64 _ => true
  | PyFloat _ | NpFloat64 _ => false
  end.

Definition to_Z (a : number) : Z :=
  match a with
  | PyInt z | NpInt64 z => z
  | PyFloat _ | NpFloat64 _ => 0%Z
  end.

Definition is_zero (a : number) : bool :=
  match a with
  | PyInt z | NpInt64 z => (z =? 0)%Z
  | PyFloat x | NpFloat64 x => PrimFloat.eqb x 0%float
  end.

(** Result of a binary operator whose integer and float versions are
    [fz] and [ff]: a NumPy operand makes the result a NumPy scalar; two
    integers give an integer (wrapped when it is an [int64]). *)
Definition arith (fz : Z -> Z -> Z) (ff : float -> float -> float)
    (a b : number) : number :=
  if is_integer a && is_integer b then
    if is_numpy a || is_numpy b
    then NpInt64 (wrap64 (fz (to_Z a) (to_Z b)))
    else PyInt (fz (to_Z a) (to_Z b))
  else
    if is_numpy a || is_numpy b
    then NpFloat64 (ff (to_float a) (to_float b))
    else PyFloat (ff (to_float a) (to_float b)).

Definition mul : number -> number -> number := arith Z.mul PrimFloat.mul.
Definition sub : number -> number -> number := arith Z.sub PrimFloat.sub.

(** The operator [/].  Between Python scalars a zero divisor raises;
    as soon as one operand is a NumPy scalar the operands are converted to
    binary64 and the IEEE quotient is returned (0/0 is NaN, x/0 is an
    infinity).  The quotient of two Python integers is given through
    their binary64 values, which is exact below 2^53. *)
Definition truediv (a b : number) : result number :=
  if is_numpy a || is_numpy b then
    Ok (NpFloat64 (PrimFloat.div (to_float a) (to_float b)))
  else if is_zero b then Raise ZeroDivisionError
  else Ok (PyFloat (PrimFloat.div (to_float a) (to_float b))).

End Num.

(** ** Standard output

    A printed line is kept as the pieces of its f-string: literal text,
    a number printed with [str], a number printed with [:.2f]. *)

Inductive fragment : Type :=
| Lit (s : string)
| Str (n : Num.number)
| Fmt2f (n : Num.number).

Definition line : Type := list fragment.

(** ** Cells and schemas *)

(** A cell of an object column: a string, or missing. *)
Definition cell : Type := option string.

Definition notna (c : cell) : bool :=
  match c with
  | Some _ => true
  | None => false
  end.

(** Equality of join keys and group keys.  pandas matches a missing key
    with a missing key. *)
Definition cell_eqb (a b : cell) : bool :=
  match a, b with
  | Some x, Some y => String.eqb x y
  | None, None => true
  | _, _ => false
  end.

(** The column labels of a table whose rows have type [R].  Each schema
    below is computed from the schemas of the tables it is made of, the
    way the pandas call that makes it arranges its columns. *)
Class Schema (R : Type) : Type := columns : list string.
Arguments columns R {_}.

Definition drop_column (c : string) (cols : list string) : list string :=
  filter (fun c' => negb (String.eqb c c')) cols.

Module Activity.
(** A row of the table returned by [get_target_activity]. *)
Record row : Type := mk
  { molecule_chembl_id : cell;
    standard_value : float }.
#[global] Instance schema : Schema row :=
  ["molecule_chembl_id"; "standard_value"].
End Activity.

Module Molecule.
(** A row of the table returned by [get_molecule_data]. *)
Record row : Type := mk
  { molecule_chembl_id : cell;
    canonical_smiles : cell }.
#[global] Instance schema : Schema row :=
  ["molecule_chembl_id"; "canonical_smiles"].
End Molecule.

Module Merged.
(** A row of [pd.merge(activity_data, molecule_data, ...)]. *)
Record row : Type := mk
  { molecule_chembl_id : cell;
    standard_value : float;
    canonical_smiles : cell }.
(** The left columns, then the right columns but the key. *)
#[global] Instance schema : Schema row :=
  columns Activity.row
  ++ drop_column "molecule_chembl_id" (columns Molecule.row).
End Merged.

Module Cleaned.
(** A joined row once [molecule_chembl_id] is dropped. *)
Record row : Type := mk
  { standard_value : float;
    canonical_smiles : cell }.
#[global] Instance schema : Schema row :=
  drop_column "molecule_chembl_id" (columns Merged.row).
End Cleaned.

Module Grouped.
(** A row of [.groupby("canonical_smiles", as_index=False).agg("mean")]. *)
Record row : Type := mk
  { canonical_smiles : string;
    standard_value : float }.
(** The key first, then the aggregated columns. *)
#[global] Instance schema : Schema row :=
  "canonical_smiles" :: drop_column "canonical_smiles" (columns Cleaned.row).
End Grouped.

Module Scored.
(** A grouped row with the [activity] column assigned. *)
Record row : Type := mk
  { canonical_smiles : string;
    standard_value : float;
    activity : Z }.
(** A new column is appended. *)
#[global] Instance schema : Schema row :=
  columns Grouped.row ++ ["activity"].
End Scored.

Module Training.
(** A training example: the table [create_training_data] returns. *)
Record row : Type := mk
  { canonical_smiles : string;
    activity : Z }.
#[global] Instance schema : Schema row :=
  drop_column "standard_value" (columns Scored.row).
End Training.


(** ** Training-Set Builder ([create_training_data]) *)

Section TrainingSetBuilder.

(** The aggregation [agg("mean")] applies to the values of one group, in
    row order.  Its floating-point summation is pandas' own. *)
Variable mean : list float -> float.

(** [pd.merge(left, right, on="molecule_chembl_id", how="left")]: every
    left row, in order, paired with each right row of equal key, in order;
    a left row without a match is kept once with the right columns
    missing. *)
Definition merged_rows_of (a : Activity.row) (right : list Molecule.row)
    : list Merged.row :=
  match
    filter
      (fun m => cell_eqb (Activity.molecule_chembl_id a)
                         (Molecule.molecule_chembl_id m))
      right
  with
  | [] =>
      [Merged.mk (Activity.molecule_chembl_id a)
                 (Activity.standard_value a) None]
  | matches =>
      map (fun m =>
             Merged.mk (Activity.molecule_chembl_id a)
                       (Activity.standard_value a)
                       (Molecule.canonical_smiles m))
          matches
  end.

Definition merge_left (left : list Activity.row) (right : list Molecule.row)
    : list Merged.row :=
  flat_map (fun a => merged_rows_of a right) left.

(** [.dropna(how="any")]: a row survives when none of its cells is
    missing. *)
Definition complete (r : Merged.row) : bool :=
  notna (Merged.molecule_chembl_id r)
  && negb (PrimFloat.is_nan (Merged.standard_value r))
  && notna (Merged.canonical_smiles r).

Definition dropna (df : list Merged.row) : list Merged.row :=
  filter complete df.

(** [.drop(columns="molecule_chembl_id")]. *)
Definition drop_molecule_chembl_id (df : list Merged.row) : list Cleaned.row :=
  map (fun r => Cleaned.mk (Merged.standard_value r) (Merged.canonical_smiles r))
      df.

(** The joined, cleaned table that is grouped. *)
Definition joined (activity_data : list Activity.row)
    (molecule_data : list Molecule.row) : list Cleaned.row :=
  drop_molecule_chembl_id (dropna (merge_left activity_data molecule_data)).

(** Grouping: the values of each key are collected in row order, keys in
    order of first appearance. *)
Fixpoint add_to_group (k : string) (v : float)
    (groups : list (string * list float)) : list (string * list float) :=
  match groups with
  | [] => [(k, [v])]
  | (k', vs) :: rest =>
      if String.eqb k k' then (k', vs ++ [v]) :: rest
      else (k', vs) :: add_to_group k v rest
  end.

(** A row whose key is missing belongs to no group ([dropna=True]). *)
Definition group_step (groups : list (string * list float)) (r : Cleaned.row)
    : list (string * list float) :=
  match Cleaned.canonical_smiles r with
  | Some k => add_to_group k (Cleaned.standard_value r) groups
  | None => groups
  end.

Definition collect_groups (df : list Cleaned.row) : list (string * list float) :=
  fold_left group_step df [].

(** [sort=True]: the groups are delivered in increasing key order. *)
Fixpoint insert_group (g : string * list float)
    (groups : list (string * list float)) : list (string * list float) :=
  match groups with
  | [] => [g]
  | h :: rest =>
      if String.leb (fst g) (fst h) then g :: h :: rest
      else h :: insert_group g rest
  end.

Definition sort_groups (groups : list (string * list float))
    : list (string * list float) :=
  fold_right insert_group [] groups.

Definition groupby_canonical_smiles (df : list Cleaned.row)
    : list (string * list float) :=
  sort_groups (collect_groups df).

(** [.agg("mean")] with [as_index=False]: one row per group, the key back
    as a column. *)
Definition agg_mean (groups : list (string * list float)) : list Grouped.row :=
  map (fun g => Grouped.mk (fst g) (mean (snd g))) groups.

(** [(training_data["standard_value"] < nm_cutoff).astype(int)]. *)
Definition astype_int (b : bool) : Z := if b then 1%Z else 0%Z.

Definition assign_activity (nm_cutoff : float) (df : list Grouped.row)
    : list Scored.row :=
  map (fun r =>
         Scored.mk (Grouped.canonical_smiles r) (Grouped.standard_value r)
           (astype_int (PrimFloat.ltb (Grouped.standard_value r) nm_cutoff)))
      df.

(** [training_data["activity"].sum()]: a NumPy [int64]. *)
Definition sum_activity (df : list Scored.row) : Num.number :=
  Num.NpInt64
    (fold_left (fun acc r => Num.wrap64 (acc + Scored.activity r)) df 0%Z).

Definition len {R : Type} (df : list R) : Num.number :=
  Num.PyInt (Z.of_nat (length df)).

(** [training_data.drop(columns="standard_value")]. *)
Definition drop_standard_value (df : list Scored.row) : list Training.row :=
  map (fun r => Training.mk (Scored.canonical_smiles r) (Scored.activity r)) df.

(** The function, statement by statement.  It returns what it printed
    together with the table; the division is its only step that has an
    exceptional outcome in Python. *)
Definition create_training_data (activity_data : list Activity.row)
    (molecule_data : list Molecule.row) (nm_cutoff : float)
    : result (list line * list Training.row) :=
  let training_data :=
    agg_mean
      (groupby_canonical_smiles
         (drop_molecule_chembl_id
            (dropna (merge_left activity_data molecule_data)))) in
  let training_data := assign_activity nm_cutoff training_data in
  let actives := sum_activity training_data in
  let inactives := Num.sub (len training_data) actives in
  percentage <- Num.truediv (Num.mul (Num.PyInt 100) actives) (len training_data) ;;
  Ok ([ [Lit "Creating training data"];
        [Lit "Actives: "; Str actives; Lit " ("; Fmt2f percentage;
         Lit "%), Inactives: "; Str inactives] ],
      drop_standard_value training_data).

(** The potency values averaged for structure [s]: those of the joined,
    cleaned rows whose structure string is [s], in row order. *)
Definition potencies (s : string) (df : list Cleaned.row) : list float :=
  map Cleaned.standard_value
      (filter (fun r => cell_eqb (Cleaned.canonical_smiles r) (Some s)) df).

End TrainingSetBuilder.


(** ** Bioactivity Fetcher ([get_target_activity]) *)

(** A record of the service's JSON answer: a dictionary from field names
    to values.  ChEMBL delivers identifiers and quantities as strings, or
    null. *)
Definition record : Type := list (string * cell).

Definition mem (c : string) (cols : list string) : bool :=
  existsb (String.eqb c) cols.

(** [pd.DataFrame(records)]: the columns are the keys of the records, in
    order of first appearance; no record, no column. *)
Definition add_keys (cols : list string) (r : record) : list string :=
  fold_left (fun acc k => if mem k acc then acc else acc ++ [k]) (map fst r) cols.

Definition frame_columns (records : list record) : list string :=
  fold_left add_keys records [].

(** The cell of a record under a column; missing when the record lacks the
    key. *)
Fixpoint record_get (r : record) (k : string) : cell :=
  match r with
  | [] => None
  | (k', v) :: rest => if String.eqb k k' then v else record_get rest k
  end.

(** [pd.DataFrame(records)[["molecule_chembl_id", "standard_value"]]]:
    a label that is no column raises [KeyError]. *)
Definition select_id_value (records : list record)
    : result (list (cell * cell)) :=
  let cols := frame_columns records in
  if mem "molecule_chembl_id" cols && mem "standard_value" cols then
    Ok (map (fun r => (record_get r "molecule_chembl_id",
                       record_get r "standard_value")) records)
  else Raise KeyError.

Section BioactivityFetcher.

(** [activity.filter(...).only(...)]: the matching records, in the
    service's order. *)
Variable activity_filter :
  forall (target_chembl_id standard_type relation standard_units : string)
         (only : list string), list record.

(** The parser behind [pd.to_numeric]; [None] for text that is no number. *)
Variable parse_float : string -> option float.

(** [pd.to_numeric(column)]: a missing cell becomes NaN, text that does not
    parse raises [ValueError]. *)
Fixpoint to_numeric (col : list cell) : result (list float) :=
  match col with
  | [] => Ok []
  | None :: rest =>
      xs <- to_numeric rest ;; Ok (PrimFloat.nan :: xs)
  | Some s :: rest =>
      match parse_float s with
      | None => Raise ValueError
      | Some x => xs <- to_numeric rest ;; Ok (x :: xs)
      end
  end.

Definition get_target_activity (chembl_id : string)
    : result (list line * list Activity.row) :=
  let activities :=
    activity_filter chembl_id "IC50" "=" "nM"
      ["molecule_chembl_id"; "standard_value"] in
  let found := Num.PyInt (Z.of_nat (length activities)) in
  activities_df <- select_id_value (firstn 100 activities) ;;
  standard_value <- to_numeric (map snd activities_df) ;;
  Ok ([ [Lit "Getting activity data for "; Lit chembl_id];
        [Lit "Found "; Str found; Lit " activities"] ],
      map (fun p => Activity.mk (fst p) (snd p))
          (combine (map fst activities_df) standard_value)).

(** A cell and the number [to_numeric] makes of it. *)
Definition numeric_of (c : cell) (x : float) : Prop :=
  match c with
  | None => PrimFloat.is_nan x = true
  | Some s => parse_float s = Some x
  end.

(** The table row a record stands for. *)
Definition row_of_record (r : record) (a : Activity.row) : Prop :=
  Activity.molecule_chembl_id a = record_get r "molecule_chembl_id" /\
  numeric_of (record_get r "standard_value") (Activity.standard_value a).

End BioactivityFetcher.

(** ** Reference Library Loader ([download_drug_repurposing_hub]) *)

Module Hub.
(** A row of the Drug Repurposing Hub table: the [smiles] column and the
    remaining columns, which are only passed through. *)
Record row (Meta : Type) : Type := mk
  { smiles : cell;
    meta : Meta }.
Arguments mk {Meta}.
Arguments smiles {Meta}.
Arguments meta {Meta}.
End Hub.

(** The part of the world the loader touches: the local files, the
    network requests issued so far, the text printed so far. *)
Record World (File : Type) : Type := mkWorld
  { files : string -> option File;
    requests : list string;
    stdout : list line }.
Arguments mkWorld {File}.
Arguments files {File}.
Arguments requests {File}.
Arguments stdout {File}.

Definition exists_ {File : Type} (w : World File) (path : string) : bool :=
  match files w path with
  | Some _ => true
  | None => false
  end.

Definition write_file {File : Type} (w : World File) (path : string)
    (content : File) : World File :=
  mkWorld (fun p => if String.eqb p path then Some content else files w p)
          (requests w) (stdout w).

Definition request {File : Type} (w : World File) (url : string) : World File :=
  mkWorld (files w) (requests w ++ [url]) (stdout w).

Definition print {File : Type} (w : World File) (l : line) : World File :=
  mkWorld (files w) (requests w) (stdout w ++ [l]).

Section ReferenceLibraryLoader.

(** RDKit: molecules, the SMILES parser ([None] for a string that is no
    valid structure) and the canonical writer. *)
Variable Mol : Type.
Variable MolFromSmiles : string -> option Mol.
Variable MolToSmiles : Mol -> string.

Variable Meta : Type.

(** [pd.read_csv(url, sep="\t", skiprows=9)]: the table served at [url],
    or the exception of a failed download. *)
Variable read_csv : string -> result (list (Hub.row Meta)).

Definition canon_smiles (smiles : string) : option string :=
  match MolFromSmiles smiles with
  | None => None
  | Some mol => Some (MolToSmiles mol)
  end.

(** [df["smiles"].apply(canon_smiles)]: the function is called on every
    cell; on a missing cell (a float NaN) the RDKit parser rejects its
    argument. *)
Fixpoint apply_canon_smiles (df : list (Hub.row Meta))
    : result (list (Hub.row Meta)) :=
  match df with
  | [] => Ok []
  | r :: rest =>
      match Hub.smiles r with
      | None => Raise TypeError
      | Some s =>
          rest' <- apply_canon_smiles rest ;;
          Ok (Hub.mk (canon_smiles s) (Hub.meta r) :: rest')
      end
  end.

(** [df.dropna(subset=["smiles"], inplace=True)]. *)
Definition dropna_smiles (df : list (Hub.row Meta)) : list (Hub.row Meta) :=
  filter (fun r => notna (Hub.smiles r)) df.

(** [df.drop_duplicates(subset=["smiles"], keep="first", inplace=True)]:
    a row is kept when no earlier row has its [smiles]. *)
Fixpoint drop_duplicates_seen (seen : list cell) (df : list (Hub.row Meta))
    : list (Hub.row Meta) :=
  match df with
  | [] => []
  | r :: rest =>
      if existsb (cell_eqb (Hub.smiles r)) seen
      then drop_duplicates_seen seen rest
      else r :: drop_duplicates_seen (Hub.smiles r :: seen) rest
  end.

Definition drop_duplicates (df : list (Hub.row Meta)) : list (Hub.row Meta) :=
  drop_duplicates_seen [] df.

(** [Series.unique()]. *)
Fixpoint unique (seen : list cell) (col : list cell) : list cell :=
  match col with
  | [] => []
  | c :: rest =>
      if existsb (cell_eqb c) seen then unique seen rest
      else c :: unique (c :: seen) rest
  end.

Definition hub_path : string := "data/drug_repurposing_hub.csv".

Definition hub_url : string :=
  "https://storage.googleapis.com/cdot-general-storage/repurposing_samples_20240610.txt".

(** The function: the world it leaves, and how it ended. *)
Definition download_drug_repurposing_hub (w : World (list (Hub.row Meta)))
    : World (list (Hub.row Meta)) * result unit :=
  if exists_ w hub_path then
    (print w [Lit "Drug Repurposing Hub dataset already downloaded."], Ok tt)
  else
    let w := request w hub_url in
    match read_csv hub_url with
    | Raise e => (w, Raise e)
    | Ok drug_repurposing_df =>
        match apply_canon_smiles drug_repurposing_df with
        | Raise e => (w, Raise e)
        | Ok drug_repurposing_df =>
            let drug_repurposing_df := dropna_smiles drug_repurposing_df in
            let drug_repurposing_df := drop_duplicates drug_repurposing_df in
            let w := write_file w hub_path drug_repurposing_df in
            let w :=
              print w [Lit "Drug Repurposing Hub dataset downloaded and processed."] in
            let w :=
              print w
                [Lit "Number of unique SMILES: ";
                 Str (Num.PyInt (Z.of_nat (length
                   (unique [] (map Hub.smiles drug_repurposing_df)))))] in
            (w, Ok tt)
        end
    end.

(** The first row of [df] with the structure of [r]. *)
Definition first_with (r : Hub.row Meta) (df : list (Hub.row Meta))
    : option (Hub.row Meta) :=
  find (fun r' => cell_eqb (Hub.smiles r') (Hub.smiles r)) df.

(** A raw row and the row that is to stand for it in the canonicalized
    table, in terms of the parser and the writer: when the structure
    string does not parse the structure is missing, when it parses to a
    molecule the structure is the canonical text of that molecule; the
    other columns are untouched. *)
Definition canonical_row (raw canon : Hub.row Meta) : Prop :=
  exists s,
    Hub.smiles raw = Some s /\
    Hub.meta canon = Hub.meta raw /\
    match MolFromSmiles s with
    | None => Hub.smiles canon = None
    | Some mol => Hub.smiles canon = Some (MolToSmiles mol)
    end.

(** The canonical structure of a raw row is [c]: its string parses, to a
    molecule whose canonical text is [c]. *)
Definition canonical_structure (raw : Hub.row Meta) (c : string) : Prop :=
  exists s mol,
    Hub.smiles raw = Some s /\
    MolFromSmiles s = Some mol /\
    MolToSmiles mol = c.

(** The second of two calls in a row. *)
Definition download_twice (w : World (list (Hub.row Meta)))
    : World (list (Hub.row Meta)) * result unit :=
  download_drug_repurposing_hub (fst (download_drug_repurposing_hub w)).

End ReferenceLibraryLoader.

Arguments canon_smiles {Mol} MolFromSmiles MolToSmiles smiles.
Arguments apply_canon_smiles {Mol} MolFromSmiles MolToSmiles {Meta} df.
Arguments dropna_smiles {Meta} df.
Arguments drop_duplicates_seen {Meta} seen df.
Arguments drop_duplicates {Meta} df.
Arguments first_with {Meta} r df.
Arguments canonical_row {Mol} MolFromSmiles MolToSmiles {Meta} raw canon.
Arguments canonical_structure {Mol} MolFromSmiles MolToSmiles {Meta} raw c.
Arguments download_drug_repurposing_hub
  {Mol} MolFromSmiles MolToSmiles {Meta} read_csv w.
Arguments download_twice {Mol} MolFromSmiles MolToSmiles {Meta} read_csv w.


(** ** Result Visualizer ([visualize_top_predictions]) *)

Module Prediction.
(** A row of the predictions CSV written by the external tool, as
    [pd.read_csv] delivers it: the two columns the visualizer reads.  An
    empty [smiles] field is read as a missing value (a float NaN). *)
Record row : Type := mk
  { smiles : cell;
    activity : float }.
End Prediction.

(** [s.replace(" ", "_")]. *)
Fixpoint replace_space (s : string) : string :=
  match s with
  | EmptyString => EmptyString
  | String c rest =>
      String (if Ascii.eqb c " "%char then "_"%char else c) (replace_space rest)
  end.

(** Descending order of scores with [na_position="last"]: [a] may stand
    before [b] when [b] is NaN, or neither is and [b <= a]. *)
Definition score_ge (a b : float) : bool :=
  PrimFloat.is_nan b || (negb (PrimFloat.is_nan a) && PrimFloat.leb b a).

(** The same order on the specification of binary64 numbers. *)
Definition sf_is_nan (f : spec_float) : bool :=
  match f with
  | S754_nan => true
  | _ => false
  end.

Definition sf_ge (a b : spec_float) : bool :=
  sf_is_nan b || (negb (sf_is_nan a) && SFleb b a).

Definition ranks_before (r1 r2 : Prediction.row) : Prop :=
  score_ge (Prediction.activity r1) (Prediction.activity r2) = true.

(** What [sort_values("activity", ascending=False)] promises of its
    result: the same rows, every row ranked before all rows after it.
    The order of equal scores is the sorting routine's choice. *)
Definition sorted_descending (df sorted : list Prediction.row) : Prop :=
  Permutation sorted df /\ StronglySorted ranks_before sorted.

Section ResultVisualizer.

Variable Mol : Type.
Variable MolFromSmiles : string -> option Mol.

(** [Draw.MolsToGridImage(mols, legends=..., molsPerRow=...)]. *)
Variable Image : Type.
Variable MolsToGridImage :
  forall (mols : list (option Mol)) (legends : list line) (molsPerRow : nat),
    result Image.

(** [pd.read_csv(path)] and [DataFrame.sort_values("activity",
    ascending=False)]. *)
Variable read_csv : string -> result (list Prediction.row).
Variable sort_values_activity : list Prediction.row -> list Prediction.row.

Definition head {R : Type} (n : nat) (df : list R) : list R := firstn n df.

(** [[Chem.MolFromSmiles(s) for s in predictions_df["smiles"]]]: the
    parser is called on every cell in turn.  A string that is no valid
    structure gives [None]; on a missing cell (a float NaN) the parser
    rejects its argument and the comprehension ends there. *)
Fixpoint parse_structures (cells : list cell) : result (list (option Mol)) :=
  match cells with
  | [] => Ok []
  | None :: _ => Raise TypeError
  | Some s :: rest =>
      mols <- parse_structures rest ;;
      Ok (MolFromSmiles s :: mols)
  end.

Definition predictions_path (search : string) : string :=
  "data/" ++ replace_space search ++ "_predictions.csv".

(** The table bound to [predictions_df]. *)
Definition top_predictions (df : list Prediction.row) : list Prediction.row :=
  head 9 (sort_values_activity df).

Definition visualize_top_predictions (search : string) : result Image :=
  df <- read_csv (predictions_path search) ;;
  let predictions_df := top_predictions df in
  mols <- parse_structures (map Prediction.smiles predictions_df) ;;
  MolsToGridImage
    mols
    (map (fun a => [Fmt2f (Num.PyFloat a)])
         (map Prediction.activity predictions_df))
    3.

End ResultVisualizer.

Arguments parse_structures {Mol} MolFromSmiles cells.
Arguments visualize_top_predictions
  {Mol} MolFromSmiles {Image} MolsToGridImage read_csv sort_values_activity
  search.

(** ** Notions used to state properties of the training set *)

(** The groups are in key order. *)
Definition key_le (g h : string * list float) : Prop :=
  String.leb (fst g) (fst h) = true.

(** The number of training examples with label [l]. *)
Definition count_label (l : Z) (table : list Training.row) : Z :=
  Z.of_nat (length (filter (fun r => (Training.activity r =? l)%Z) table)).

(** ** Target Resolver and Molecule Fetcher
    ([get_target_chembl_id], [get_molecule_data]) *)

Module Exc.

(** Exceptions beyond those of [Py.exn]: the error of
    [subprocess.run(..., check=True)], with the exit status. *)
Inductive exception : Type :=
| Builtin (e : Py.exn)
| CalledProcessError (returncode : Z) (cmd : list string).

Inductive outcome (A : Type) : Type :=
| Returned (a : A)
| Raised (e : exception).

Arguments Returned {A} a.
Arguments Raised {A} e.

End Exc.

Import Exc.






Section TargetResolver.

(** [target.search(target_name)]: the matches, best first. *)
Variable target_search : string -> list record.


End TargetResolver.

(** A JSON value of a molecule record: null, a string, or an object. *)
#[warnings="-register-all"]
Inductive json : Type :=
| JNull
| JStr (s : string)
| JObj (fields : list (string * json)).

Definition is_dict (j : json) : bool :=
  match j with
  | JObj _ => true
  | _ => false
  end.

(** [d[key] = value]: the value is replaced in place when the key is
    there, appended otherwise. *)
Fixpoint dict_setitem (key : string) (value : cell) (d : record) : record :=
  match d with
  | [] => [(key, value)]
  | (k, v) :: rest =>
      if String.eqb key k then (k, value) :: rest
      else (k, v) :: dict_setitem key value rest
  end.

(** The leaves below a value, each under its dotted path. *)
Fixpoint leaves (key_string : string) (j : json) : list (string * cell) :=
  match j with
  | JNull => [(key_string, None)]
  | JStr s => [(key_string, Some s)]
  | JObj fields =>
      flat_map (fun kv => leaves (key_string ++ "." ++ fst kv) (snd kv)) fields
  end.

Definition leaf_of (j : json) : cell :=
  match j with
  | JStr s => Some s
  | _ => None
  end.

(** One record of [pd.json_normalize(records)]: the entries that are no
    objects stay, in order; then the leaves of the entries that are
    objects are set, each under the path from the top, joined by dots. *)
Definition normalise_record (r : list (string * json)) : record :=
  let top := map (fun kv => (fst kv, leaf_of (snd kv)))
                 (filter (fun kv => negb (is_dict (snd kv))) r) in
  let nested :=
    flat_map
      (fun kv =>
         match snd kv with
         | JObj fields =>
             flat_map (fun kv' => leaves (fst kv ++ "." ++ fst kv') (snd kv'))
                      fields
         | _ => []
         end)
      r in
  fold_left (fun d kv => dict_setitem (fst kv) (snd kv) d) nested top.

(** [pd.json_normalize(records)[[id, smiles]].rename(columns=...)]:
    a label that is no column raises [KeyError]. *)
Definition select_id_smiles (records : list record) : result (list Molecule.row) :=
  let cols := frame_columns records in
  if mem "molecule_chembl_id" cols
     && mem "molecule_structures.canonical_smiles" cols
  then
    Ok (map (fun r =>
               Molecule.mk (record_get r "molecule_chembl_id")
                 (record_get r "molecule_structures.canonical_smiles"))
            records)
  else Raise KeyError.

Section MoleculeFetcher.

(** [molecule.filter(molecule_chembl_id__in=ids).only(...)]: the records
    of the molecules the service finds. *)
Variable molecule_filter :
  forall (molecule_chembl_id__in : list cell) (only : list string),
    list (list (string * json)).

Definition get_molecule_data (molecule_chembl_ids : list cell)
    : result (list line * list Molecule.row) :=
  let compounds_provider :=
    molecule_filter molecule_chembl_ids
      ["molecule_chembl_id"; "molecule_structures"] in
  compounds_df <- select_id_smiles (map normalise_record compounds_provider) ;;
  Ok ([ [Lit "Getting molecule data for ";
         Str (Num.PyInt (Z.of_nat (length molecule_chembl_ids)));
         Lit " ChEMBL IDs"] ],
      compounds_df).

End MoleculeFetcher.

(** The records the service delivers for
    [.only("molecule_chembl_id", "molecule_structures")]: the identifier,
    and the structure object of ChEMBL with its four text fields, or null
    for a molecule without structure. *)
Record structures : Type := mk_structures
  { st_canonical_smiles : cell;
    st_molfile : cell;
    st_standard_inchi : cell;
    st_standard_inchi_key : cell }.

Definition leaf (c : cell) : json :=
  match c with
  | Some s => JStr s
  | None => JNull
  end.

Definition molecule_json (m : cell * option structures)
    : list (string * json) :=
  [ ("molecule_chembl_id", leaf (fst m));
    ("molecule_structures",
     match snd m with
     | None => JNull
     | Some st =>
         JObj [ ("canonical_smiles", leaf (st_canonical_smiles st));
                ("molfile", leaf (st_molfile st));
                ("standard_inchi", leaf (st_standard_inchi st));
                ("standard_inchi_key", leaf (st_standard_inchi_key st)) ]
     end) ].

Definition has_structures (m : cell * option structures) : bool :=
  match snd m with
  | Some _ => true
  | None => false
  end.

(** The table row of a molecule: its identifier and its SMILES, missing
    when it has no structure object. *)
Definition molecule_row (m : cell * option structures) : Molecule.row :=
  Molecule.mk (fst m)
    match snd m with
    | Some st => st_canonical_smiles st
    | None => None
    end.

(** The potency text of a record that [pd.to_numeric] rejects. *)
Definition unparsable (parse_float : string -> option float) (r : record)
    : bool :=
  match record_get r "standard_value" with
  | Some s =>
      match parse_float s with
      | Some _ => false
      | None => true
      end
  | None => false
  end.

(** ** Paths and the external tool
    ([save_training_data], [train_chemprop_model],
    [predict_with_chemprop]) *)

(** [c in s]. *)
Fixpoint contains (c : ascii) (s : string) : bool :=
  match s with
  | EmptyString => false
  | String c' rest => Ascii.eqb c' c || contains c rest
  end.

(** [s.split("/")]. *)
Fixpoint split_slash (current : string) (s : string) : list string :=
  match s with
  | EmptyString => [current]
  | String c rest =>
      if Ascii.eqb c "/"%char then current :: split_slash "" rest
      else split_slash (current ++ String c "") rest
  end.

Definition starts_with_slash (s : string) : bool :=
  match s with
  | String c _ => Ascii.eqb c "/"%char
  | EmptyString => false
  end.

Fixpoint ends_with_slash (s : string) : bool :=
  match s with
  | EmptyString => false
  | String c EmptyString => Ascii.eqb c "/"%char
  | String _ rest => ends_with_slash rest
  end.

(** [posixpath.join(a, b)]. *)
Definition posix_join (a b : string) : string :=
  if starts_with_slash b then b
  else if String.eqb a "" || ends_with_slash a then a ++ b
  else a ++ "/" ++ b.

(** [posixpath.splitroot]: the root is ["/"], or ["//"] for exactly two
    leading slashes, or empty. *)
Definition splitroot (p : string) : string * string :=
  match p with
  | String c1 rest1 =>
      if Ascii.eqb c1 "/"%char then
        match rest1 with
        | String c2 rest2 =>
            if Ascii.eqb c2 "/"%char then
              if starts_with_slash rest2 then ("/", rest1)
              else ("//", rest2)
            else ("/", rest1)
        | EmptyString => ("/", rest1)
        end
      else ("", p)
  | EmptyString => ("", p)
  end.

(** [str(PurePosixPath(p))]: the root, then the components that are
    neither empty nor ["."], joined by single slashes. *)
Fixpoint join_slash (parts : list string) : string :=
  match parts with
  | [] => ""
  | [p] => p
  | p :: rest => p ++ "/" ++ join_slash rest
  end.

Definition str_path (p : string) : string :=
  let (root, rel) := splitroot p in
  let tail :=
    filter (fun x => negb (String.eqb x "") && negb (String.eqb x "."))
           (split_slash "" rel) in
  let s := (root ++ join_slash tail)%string in
  if String.eqb s "" then "." else s.

(** The file [save_training_data] writes:
    [output_dir / f"{target_name}_training_data.csv"], a path object,
    given to [to_csv] as its string.  [output_dir] is the text the path
    was made from. *)
Definition training_data_csv (output_dir target_name : string) : string :=
  str_path (posix_join output_dir (target_name ++ "_training_data.csv")).

Section ExternalTool.

(** [subprocess.run(args)]: the exit status of the process. *)
Variable subprocess_run : list string -> Z.

(** [subprocess.run(args, check=True)]. *)
Definition run_checked (args : list string) : outcome unit :=
  let returncode := subprocess_run args in
  if (returncode =? 0)%Z then Returned tt
  else Raised (CalledProcessError returncode args).

Definition chemprop_train_args (target_name data_dir output_dir : string)
    : list string :=
  [ "chemprop"; "train";
    "--data-path";
    (data_dir ++ "/" ++ replace_space target_name ++ "_training_data.csv")%string;
    "--task-type"; "classification";
    "--save-dir"; (output_dir ++ "/" ++ replace_space target_name)%string;
    "--split-type"; "scaffold_balanced" ].

Definition train_chemprop_model (target_name data_dir output_dir : string)
    : outcome unit :=
  run_checked (chemprop_train_args target_name data_dir output_dir).

Definition chemprop_predict_args (target_name preds_dir model_dir : string)
    : list string :=
  [ "chemprop"; "predict";
    "--test-path"; "data/drug_repurposing_hub.csv";
    "--model-paths"; (model_dir ++ "/" ++ replace_space target_name)%string;
    "--smiles-columns"; "smiles";
    "--preds-path";
    (preds_dir ++ "/" ++ replace_space target_name ++ "_predictions.csv")%string ].

Definition predict_with_chemprop (target_name preds_dir model_dir : string)
    : outcome unit :=
  run_checked (chemprop_predict_args target_name preds_dir model_dir).

End ExternalTool.

(** The value that follows a flag on a command line. *)
Fixpoint option_value (flag : string) (args : list string) : option string :=
  match args with
  | f :: ((v :: _) as rest) =>
      if String.eqb f flag then Some v else option_value flag rest
  | _ => None
  end.

(** The arguments [run_repurposing_pipeline] gives the stages for a
    search string. *)
Definition pipeline_saved_csv (search : string) : string :=
  training_data_csv "data" (replace_space search).

Definition pipeline_train_args (search : string) : list string :=
  chemprop_train_args search "data" "models/".

Definition pipeline_predict_args (search : string) : list string :=
  chemprop_predict_args search "data" "models/".

(** ** Concrete instances

    Small stand-ins for the library routines, used to run the functions
    above on explicit tables. *)

Module Demo.

Open Scope float_scope.

(** Sum over count, left to right. *)
Definition mean (l : list float) : float :=
  fold_left PrimFloat.add l 0 / Num.float_of_Z (Z.of_nat (length l)).

(** A parser that accepts every string but ["not a structure"] and reads
    ["OCC"] as the molecule of ["CCO"]; molecules are their canonical
    text. *)
Definition Mol : Type := string.

Definition MolFromSmiles (s : string) : option Mol :=
  if String.eqb s "not a structure" then None
  else if String.eqb s "OCC" then Some "CCO"
  else Some s.

Definition MolToSmiles (m : Mol) : string := m.

(** Insertion sort by [score_ge]. *)
Fixpoint insert_row (r : Prediction.row) (df : list Prediction.row)
    : list Prediction.row :=
  match df with
  | [] => [r]
  | h :: rest =>
      if score_ge (Prediction.activity r) (Prediction.activity h)
      then r :: h :: rest
      else h :: insert_row r rest
  end.

Definition sort_values_activity (df : list Prediction.row)
    : list Prediction.row :=
  fold_right insert_row [] df.

(** A grid renderer that lays out whatever it is given: the entries fill
    rows of [molsPerRow] cells, a missing molecule leaves its cell blank. *)
Definition Image : Type := list (list (option Mol * line)).

Fixpoint fill_rows {A : Type} (n : nat) (current : list A) (l : list A)
    : list (list A) :=
  match l with
  | [] => match current with [] => [] | _ => [rev current] end
  | x :: rest =>
      if (S (length current) =? n)%nat
      then rev (x :: current) :: fill_rows n [] rest
      else fill_rows n (x :: current) rest
  end.

Definition MolsToGridImage (mols : list (option Mol)) (legends : list line)
    (molsPerRow : nat) : result Image :=
  Ok (fill_rows molsPerRow [] (combine mols legends)).

(** Two measurements of one compound, and its structure. *)
Definition two_measurements : list Activity.row :=
  [Activity.mk (Some "CHEMBL25") 10; Activity.mk (Some "CHEMBL25") 50].

Definition one_structure : list Molecule.row :=
  [Molecule.mk (Some "CHEMBL25") (Some "CC(=O)Oc1ccccc1C(=O)O")].

(** A measured compound whose structure the service does not resolve. *)
Definition one_measurement : list Activity.row :=
  [Activity.mk (Some "CHEMBL1") 10].

Definition no_structure : list Molecule.row :=
  [Molecule.mk (Some "CHEMBL1") None].

(** A numeric parser for unsigned decimal integers. *)
Definition digit_of (c : ascii) : option Z :=
  let n := Z.of_nat (nat_of_ascii c) in
  if ((48 <=? n) && (n <=? 57))%Z then Some (n - 48)%Z else None.

Fixpoint parse_digits (acc : Z) (s : string) : option Z :=
  match s with
  | EmptyString => Some acc
  | String c rest =>
      match digit_of c with
      | Some d => parse_digits (10 * acc + d) rest
      | None => None
      end
  end.

Definition parse_float (s : string) : option float :=
  match s with
  | EmptyString => None
  | _ =>
      match parse_digits 0 s with
      | Some z => Some (Num.float_of_Z z)
      | None => None
      end
  end.

(** A service that knows one target, with two activity records. *)
Definition activity_filter
    (target_chembl_id standard_type relation standard_units : string)
    (only : list string) : list record :=
  if String.eqb target_chembl_id "CHEMBL364" then
    [ [("molecule_chembl_id", Some "CHEMBL25"); ("standard_value", Some "120")];
      [("molecule_chembl_id", Some "CHEMBL112"); ("standard_value", None)] ]
  else [].

(** Worlds: one where the library file is already there and the network
    is down, one with no file and the raw table on the network. *)
Definition offline_read_csv (url : string) : result (list (Hub.row string)) :=
  Raise HTTPError.

Definition cached_world : World (list (Hub.row string)) :=
  mkWorld
    (fun p => if String.eqb p hub_path
              then Some [Hub.mk (Some "CCO") "ethanol"]
              else None)
    [] [].

Definition raw_hub : list (Hub.row string) :=
  [ Hub.mk (Some "CCO") "ethanol";
    Hub.mk (Some "not a structure") "unknown";
    Hub.mk (Some "OCC") "alcohol";
    Hub.mk (Some "N") "ammonia" ].

Definition online_read_csv (url : string) : result (list (Hub.row string)) :=
  if String.eqb url hub_url then Ok raw_hub else Raise HTTPError.

Definition fresh_world : World (list (Hub.row string)) :=
  mkWorld (fun _ => None) [] [].

(** Three predictions files: ten scored structures for the first
    target; two for the second, one of them no structure at all; nine
    for the third, the best scored with an empty structure field. *)
Definition ten_predictions : list Prediction.row :=
  [ Prediction.mk (Some "CCO") 0.25; Prediction.mk (Some "N") 0.75;
    Prediction.mk (Some "O") 0.5; Prediction.mk (Some "CC") 0.125;
    Prediction.mk (Some "CCC") 0.875; Prediction.mk (Some "CCN") 0.375;
    Prediction.mk (Some "CO") 0.625; Prediction.mk (Some "C") 0.0625;
    Prediction.mk (Some "CCCC") 0.9375; Prediction.mk (Some "CN") 0.5 ].

Definition two_predictions : list Prediction.row :=
  [ Prediction.mk (Some "not a structure") 0.25;
    Prediction.mk (Some "CCO") 0.75 ].

Definition nine_predictions : list Prediction.row :=
  [ Prediction.mk (Some "CCO") 0.25; Prediction.mk (Some "N") 0.75;
    Prediction.mk (Some "O") 0.5; Prediction.mk (Some "CC") 0.125;
    Prediction.mk None 0.875; Prediction.mk (Some "CCN") 0.375;
    Prediction.mk (Some "CO") 0.625; Prediction.mk (Some "C") 0.0625;
    Prediction.mk (Some "CCCC") 0.5 ].

Definition read_predictions (path : string) : result (list Prediction.row) :=
  if String.eqb path "data/Plasmodium_falciparum_predictions.csv"
  then Ok ten_predictions
  else if String.eqb path "data/SARS-CoV-2_predictions.csv"
  then Ok two_predictions
  else if String.eqb path "data/Homo_sapiens_predictions.csv"
  then Ok nine_predictions
  else Raise FileNotFoundError.


Definition two_molecules : list (cell * option structures) :=
  [ (Some "CHEMBL25",
     Some (mk_structures (Some "CC(=O)Oc1ccccc1C(=O)O") (Some "molfile")
             (Some "InChI=1S/C9H8O4") (Some "BSYNRYMUTXBXSQ-UHFFFAOYSA-N")));
    (Some "CHEMBL112", None) ].

Definition molecule_filter (molecule_chembl_id__in : list cell)
    (only : list string) : list (list (string * json)) :=
  map molecule_json two_molecules.

End Demo.


(** * Properties *)

(** Comparison of mantissas, in terms of [Pos.compare]. *)
Ltac pos_compare :=
  rewrite ?Pos.compare_cont_spec; unfold Pos.switch_Eq.

(** ** Cells *)

Lemma cell_eqb_eq (a b : cell) : cell_eqb a b = true <-> a = b.
Proof.
  destruct a as [x|], b as [y|]; simpl; try (split; congruence).
  rewrite String.eqb_eq. split; congruence.
Qed.

Lemma cell_eqb_refl (a : cell) : cell_eqb a a = true.
Proof. now apply cell_eqb_eq. Qed.

Lemma notna_true (c : cell) : notna c = true <-> exists s, c = Some s.
Proof.
  destruct c as [s|]; simpl; split; try congruence.
  - now exists s.
  - now intros [s Hs].
Qed.

Lemma In_firstn {A : Type} (n : nat) (l : list A) (x : A) :
  In x (firstn n l) -> In x l.
Proof.
  intros H. rewrite <- (firstn_skipn n l). apply in_or_app. now left.
Qed.

(** ** Grouping *)

Section GroupingFacts.

Implicit Types (k : string) (v : float) (gs : list (string * list float)).

Lemma add_to_group_keys k v gs :
  map fst (add_to_group k v gs) =
  if mem k (map fst gs) then map fst gs else map fst gs ++ [k].
Proof.
  unfold mem. induction gs as [|[k' vs] gs IH]; simpl; [reflexivity|].
  destruct (String.eqb k k'); simpl; [reflexivity|].
  rewrite IH. now destruct (existsb (String.eqb k) (map fst gs)).
Qed.

Lemma mem_In (c : string) (cols : list string) : mem c cols = true <-> In c cols.
Proof.
  unfold mem. rewrite existsb_exists. split.
  - intros [x [Hx Heq]]. apply String.eqb_eq in Heq. now subst.
  - intros H. exists c. split; [assumption | apply String.eqb_refl].
Qed.

Lemma mem_false (c : string) (cols : list string) :
  mem c cols = false <-> ~ In c cols.
Proof.
  rewrite <- mem_In. destruct (mem c cols); split; congruence.
Qed.

Lemma add_to_group_NoDup k v gs :
  NoDup (map fst gs) -> NoDup (map fst (add_to_group k v gs)).
Proof.
  intros ND. rewrite add_to_group_keys.
  destruct (mem k (map fst gs)) eqn:E; [assumption|].
  apply mem_false in E.
  apply NoDup_app; [assumption | constructor; [intros [] | constructor] |].
  intros x Hx [<-|[]]. contradiction.
Qed.

(** A group of the updated list is an old group of another key, or the
    group of [k] with [v] appended. *)
Lemma add_to_group_In k v gs k' vs' :
  NoDup (map fst gs) ->
  In (k', vs') (add_to_group k v gs) ->
  (k' <> k /\ In (k', vs') gs) \/
  (k' = k /\
   ((exists old, In (k, old) gs /\ vs' = old ++ [v]) \/
    (~ In k (map fst gs) /\ vs' = [v]))).
Proof.
  induction gs as [|[k0 vs0] gs IH]; simpl; intros ND H.
  - destruct H as [H|[]]. inversion H; subst. right. split; [reflexivity|].
    right. split; [tauto | reflexivity].
  - inversion ND as [|? ? Hnotin ND']; subst.
    destruct (String.eqb k k0) eqn:E.
    + apply String.eqb_eq in E. subst k0.
      destruct H as [H|H].
      * inversion H; subst. right. split; [reflexivity|]. left.
        exists vs0. split; [now left | reflexivity].
      * left. split; [|now right].
        intros ->. apply Hnotin. apply (in_map fst) in H. exact H.
    + apply String.eqb_neq in E.
      destruct H as [H|H].
      * inversion H; subst. left. split; [congruence | now left].
      * destruct (IH ND' H) as [[Hne Hin]|[-> [[old [Hin ->]]|[Hnotin' ->]]]].
        -- left. split; [assumption | now right].
        -- right. split; [reflexivity|]. left. exists old.
           split; [now right | reflexivity].
        -- right. split; [reflexivity|]. right. split; [|reflexivity].
           simpl. intros [Heq|Hin]; [congruence | contradiction].
Qed.

Lemma potencies_app (s : string) (df1 df2 : list Cleaned.row) :
  potencies s (df1 ++ df2) = potencies s df1 ++ potencies s df2.
Proof. unfold potencies. now rewrite filter_app, map_app. Qed.

Lemma collect_groups_snoc (df : list Cleaned.row) (r : Cleaned.row) :
  collect_groups (df ++ [r]) = group_step (collect_groups df) r.
Proof. unfold collect_groups. now rewrite fold_left_app. Qed.

Lemma potencies_nil_iff (s : string) (df : list Cleaned.row) :
  potencies s df = [] <->
  ~ exists r, In r df /\ Cleaned.canonical_smiles r = Some s.
Proof.
  unfold potencies. split.
  - intros H [r [Hin Hr]].
    assert (Hf : In r (filter (fun r => cell_eqb (Cleaned.canonical_smiles r) (Some s)) df)).
    { apply filter_In. split; [assumption|]. now apply cell_eqb_eq. }
    apply (in_map Cleaned.standard_value) in Hf. rewrite H in Hf. destruct Hf.
  - intros H.
    destruct (filter _ df) as [|r l] eqn:E; [reflexivity|].
    exfalso. apply H. exists r.
    assert (Hf : In r (filter (fun r => cell_eqb (Cleaned.canonical_smiles r) (Some s)) df))
      by (rewrite E; now left).
    apply filter_In in Hf. destruct Hf as [Hin Hk].
    split; [assumption | now apply cell_eqb_eq].
Qed.

(** The invariant of the grouping loop. *)
Lemma collect_groups_spec (df : list Cleaned.row) :
  NoDup (map fst (collect_groups df)) /\
  (forall k vs, In (k, vs) (collect_groups df) -> vs = potencies k df) /\
  (forall k, In k (map fst (collect_groups df)) <->
             exists r, In r df /\ Cleaned.canonical_smiles r = Some k).
Proof.
  induction df as [|r df IH] using rev_ind.
  - simpl. split; [constructor|]. split; [intros ? ? []|].
    intros k. split; [intros [] | intros [r [[] _]]].
  - destruct IH as [ND [Hvals Hkeys]].
    rewrite collect_groups_snoc. unfold group_step.
    destruct (Cleaned.canonical_smiles r) as [k0|] eqn:Ek.
    + split; [now apply add_to_group_NoDup|]. split.
      * intros k vs Hin. rewrite potencies_app.
        apply add_to_group_In in Hin; [|assumption].
        unfold potencies at 2. simpl. rewrite Ek. simpl.
        destruct Hin as [[Hne Hin]|[-> [[old [Hin ->]]|[Hnotin ->]]]].
        -- apply String.eqb_neq in Hne. rewrite String.eqb_sym, Hne. simpl.
           rewrite app_nil_r. now apply Hvals.
        -- rewrite String.eqb_refl. simpl. now rewrite (Hvals _ _ Hin).
        -- rewrite String.eqb_refl. simpl.
           rewrite Hkeys in Hnotin. apply potencies_nil_iff in Hnotin.
           now rewrite Hnotin.
      * intros k. rewrite add_to_group_keys.
        destruct (mem k0 (map fst (collect_groups df))) eqn:E.
        -- rewrite Hkeys. split.
           ++ intros [x [Hin Hx]]. exists x. split; [|assumption].
              apply in_or_app. now left.
           ++ intros [x [Hin Hx]]. apply in_app_or in Hin.
              destruct Hin as [Hin|[<-|[]]]; [now exists x|].
              apply mem_In in E. apply Hkeys in E.
              assert (k = k0) by congruence. now subst.
        -- rewrite in_app_iff, Hkeys. simpl. split.
           ++ intros [[x [Hin Hx]]|[<-|[]]].
              ** exists x. split; [|assumption]. apply in_or_app. now left.
              ** exists r. split; [|assumption]. apply in_or_app. right. now left.
           ++ intros [x [Hin Hx]]. apply in_app_or in Hin.
              destruct Hin as [Hin|[<-|[]]]; [left; now exists x|].
              right. left. congruence.
    + split; [assumption|]. split.
      * intros k vs Hin. rewrite potencies_app.
        unfold potencies at 2. simpl. rewrite Ek. simpl.
        rewrite app_nil_r. now apply Hvals.
      * intros k. rewrite Hkeys. split.
        -- intros [x [Hin Hx]]. exists x. split; [|assumption].
           apply in_or_app. now left.
        -- intros [x [Hin Hx]]. apply in_app_or in Hin.
           destruct Hin as [Hin|[<-|[]]]; [now exists x | congruence].
Qed.

Lemma insert_group_perm (g : string * list float) gs :
  Permutation (insert_group g gs) (g :: gs).
Proof.
  induction gs as [|h gs IH]; simpl; [reflexivity|].
  destruct (String.leb (fst g) (fst h)); [reflexivity|].
  rewrite IH. apply perm_swap.
Qed.

Lemma sort_groups_perm gs : Permutation (sort_groups gs) gs.
Proof.
  induction gs as [|g gs IH]; simpl; [reflexivity|].
  rewrite insert_group_perm. now apply perm_skip.
Qed.

(** What [groupby] delivers: distinct keys, each with the potencies of
    its rows. *)
Lemma groupby_spec (df : list Cleaned.row) :
  NoDup (map fst (groupby_canonical_smiles df)) /\
  (forall g, In g (groupby_canonical_smiles df) ->
             snd g = potencies (fst g) df /\
             exists r, In r df /\ Cleaned.canonical_smiles r = Some (fst g)).
Proof.
  unfold groupby_canonical_smiles.
  destruct (collect_groups_spec df) as [ND [Hvals Hkeys]].
  pose proof (sort_groups_perm (collect_groups df)) as P.
  split.
  - eapply Permutation_NoDup; [|exact ND].
    apply Permutation_map. now symmetry.
  - intros [k vs] Hin. simpl.
    apply (Permutation_in _ P) in Hin. split; [now apply Hvals|].
    apply Hkeys. apply (in_map fst) in Hin. exact Hin.
Qed.

End GroupingFacts.

(** ** Joining and cleaning *)

Section JoinFacts.

Implicit Types (a : Activity.row) (left : list Activity.row)
  (right : list Molecule.row).

Lemma merge_left_cons a left right :
  merge_left (a :: left) right = merged_rows_of a right ++ merge_left left right.
Proof. reflexivity. Qed.

Lemma dropna_app (df1 df2 : list Merged.row) :
  dropna (df1 ++ df2) = dropna df1 ++ dropna df2.
Proof. apply filter_app. Qed.

(** A complete joined row comes from an activity row and a structure row
    with the same, present identifier. *)
Lemma complete_merged_row_origin a right (r : Merged.row) :
  In r (merged_rows_of a right) -> complete r = true ->
  exists mol id,
    In mol right /\
    Activity.molecule_chembl_id a = Some id /\
    Molecule.molecule_chembl_id mol = Some id /\
    Merged.canonical_smiles r = Molecule.canonical_smiles mol /\
    Merged.standard_value r = Activity.standard_value a.
Proof.
  unfold merged_rows_of. intros Hin Hc.
  destruct (filter _ right) as [|m0 ms] eqn:E.
  - destruct Hin as [<-|[]]. unfold complete in Hc. simpl in Hc.
    rewrite andb_false_r in Hc. discriminate.
  - rewrite <- E in Hin. apply in_map_iff in Hin.
    destruct Hin as [mol [<- Hmol]]. apply filter_In in Hmol.
    destruct Hmol as [Hmol Hkey]. apply cell_eqb_eq in Hkey.
    unfold complete in Hc. simpl in Hc.
    apply andb_prop in Hc. destruct Hc as [Hc _].
    apply andb_prop in Hc. destruct Hc as [Hid _].
    apply notna_true in Hid. destruct Hid as [id Hid].
    exists mol, id. simpl. repeat split; congruence.
Qed.

Lemma joined_row_origin left right (r : Cleaned.row) :
  In r (joined left right) ->
  exists act mol id s,
    In act left /\ In mol right /\
    Activity.molecule_chembl_id act = Some id /\
    Molecule.molecule_chembl_id mol = Some id /\
    Molecule.canonical_smiles mol = Some s /\
    Cleaned.canonical_smiles r = Some s /\
    Cleaned.standard_value r = Activity.standard_value act /\
    PrimFloat.is_nan (Activity.standard_value act) = false.
Proof.
  unfold joined, drop_molecule_chembl_id, dropna, merge_left. intros Hin.
  apply in_map_iff in Hin. destruct Hin as [mr [<- Hmr]].
  apply filter_In in Hmr. destruct Hmr as [Hmr Hc].
  apply in_flat_map in Hmr. destruct Hmr as [act [Hact Hrow]].
  destruct (complete_merged_row_origin act right mr Hrow Hc)
    as [mol [id [Hmol [Ha [Hm [Hs Hv]]]]]].
  unfold complete in Hc.
  apply andb_prop in Hc. destruct Hc as [Hc Hsm].
  apply andb_prop in Hc. destruct Hc as [_ Hnan].
  apply notna_true in Hsm. destruct Hsm as [s Hsm].
  apply negb_true_iff in Hnan.
  exists act, mol, id, s. simpl. repeat split; congruence.
Qed.

(** Every row of the grouped table has its structure string. *)
Lemma joined_smiles_present left right (r : Cleaned.row) :
  In r (joined left right) -> exists s, Cleaned.canonical_smiles r = Some s.
Proof.
  intros Hin. destruct (joined_row_origin _ _ _ Hin)
    as [_ [_ [_ [s [_ [_ [_ [_ [_ [Hs _]]]]]]]]]].
  now exists s.
Qed.

Lemma dropna_merged_rows_length a right :
  length (dropna (merged_rows_of a right)) <=
  length (filter (fun m => cell_eqb (Activity.molecule_chembl_id a)
                                    (Molecule.molecule_chembl_id m)) right).
Proof.
  unfold merged_rows_of, dropna.
  destruct (filter _ right) as [|m0 ms] eqn:E.
  - simpl. unfold complete. simpl. rewrite andb_false_r. simpl. lia.
  - etransitivity; [apply filter_length_le|]. now rewrite length_map.
Qed.

Lemma matches_unique (k : cell) right :
  NoDup (map Molecule.molecule_chembl_id right) ->
  length (filter (fun m => cell_eqb k (Molecule.molecule_chembl_id m)) right) <= 1.
Proof.
  induction right as [|m right IH]; simpl; intros ND; [lia|].
  inversion ND as [|? ? Hnotin ND']; subst.
  destruct (cell_eqb k (Molecule.molecule_chembl_id m)) eqn:E.
  - apply cell_eqb_eq in E. subst k. simpl.
    destruct (filter _ right) as [|m' l] eqn:F; [simpl; lia|].
    exfalso. apply Hnotin.
    assert (Hin : In m' (filter
      (fun m0 => cell_eqb (Molecule.molecule_chembl_id m)
                          (Molecule.molecule_chembl_id m0)) right))
      by (rewrite F; now left).
    apply filter_In in Hin. destruct Hin as [Hin Hk].
    apply cell_eqb_eq in Hk. rewrite Hk. now apply in_map.
  - now apply IH.
Qed.

(** The potencies averaged for [s] are those of the rows of the left
    join that have no missing cell and the structure string [s]. *)
Lemma potencies_joined (s : string) left right :
  potencies s (joined left right) =
  map Merged.standard_value
      (filter (fun r => complete r
                        && cell_eqb (Merged.canonical_smiles r) (Some s))
              (merge_left left right)).
Proof.
  unfold potencies, joined, drop_molecule_chembl_id, dropna.
  induction (merge_left left right) as [|r df IH]; simpl; [reflexivity|].
  destruct (complete r); simpl; [|exact IH].
  destruct (cell_eqb (Merged.canonical_smiles r) (Some s)); simpl;
    now rewrite IH.
Qed.

Lemma joined_length left right :
  length (joined left right) = length (dropna (merge_left left right)).
Proof. unfold joined, drop_molecule_chembl_id. apply length_map. Qed.

(** Row counts of the cleaned join. *)
Lemma dropna_merge_length_product left right :
  length (dropna (merge_left left right)) <= length left * length right.
Proof.
  induction left as [|a left IH]; [simpl; lia|].
  rewrite merge_left_cons, dropna_app, length_app. simpl.
  pose proof (dropna_merged_rows_length a right) as H1.
  pose proof (filter_length_le
    (fun m => cell_eqb (Activity.molecule_chembl_id a)
                       (Molecule.molecule_chembl_id m)) right) as H2.
  lia.
Qed.

Lemma dropna_merge_length_unique left right :
  NoDup (map Molecule.molecule_chembl_id right) ->
  length (dropna (merge_left left right)) <= length left.
Proof.
  intros ND. induction left as [|a left IH]; [simpl; lia|].
  rewrite merge_left_cons, dropna_app, length_app. simpl.
  pose proof (dropna_merged_rows_length a right) as H1.
  pose proof (matches_unique (Activity.molecule_chembl_id a) right ND) as H2.
  lia.
Qed.

End JoinFacts.

(** ** Training-Set Builder *)

Section TrainingSetBuilderFacts.

Variable mean : list float -> float.

Lemma groupby_keys (df : list Cleaned.row) (k : string) :
  In k (map fst (groupby_canonical_smiles df)) <->
  exists r, In r df /\ Cleaned.canonical_smiles r = Some k.
Proof.
  unfold groupby_canonical_smiles.
  destruct (collect_groups_spec df) as [_ [_ Hkeys]].
  rewrite <- Hkeys.
  pose proof (Permutation_map fst (sort_groups_perm (collect_groups df))) as P.
  split; apply Permutation_in; [exact P | now symmetry].
Qed.

Lemma training_table_eq (nm_cutoff : float) (groups : list (string * list float)) :
  drop_standard_value (assign_activity nm_cutoff (agg_mean mean groups)) =
  map (fun g => Training.mk (fst g)
                  (astype_int (PrimFloat.ltb (mean (snd g)) nm_cutoff)))
      groups.
Proof.
  unfold drop_standard_value, assign_activity, agg_mean.
  rewrite !map_map. reflexivity.
Qed.

(** The function always returns: the one division it performs has a NumPy
    numerator, so it is the IEEE division. *)
Lemma create_training_data_returns activity_data molecule_data nm_cutoff :
  let scored :=
    assign_activity nm_cutoff
      (agg_mean mean
         (groupby_canonical_smiles (joined activity_data molecule_data))) in
  let actives := sum_activity scored in
  create_training_data mean activity_data molecule_data nm_cutoff =
  Ok ([ [Lit "Creating training data"];
        [Lit "Actives: "; Str actives; Lit " (";
         Fmt2f (Num.NpFloat64
                  (PrimFloat.div
                     (Num.to_float (Num.mul (Num.PyInt 100) actives))
                     (Num.to_float (len scored))));
         Lit "%), Inactives: "; Str (Num.sub (len scored) actives)] ],
      drop_standard_value scored).
Proof. reflexivity. Qed.

Lemma astype_int_01 (b : bool) : astype_int b = 0%Z \/ astype_int b = 1%Z.
Proof. destruct b; [now right | now left]. Qed.

(** The rows of the returned table, one per group. *)
Lemma training_row_group activity_data molecule_data nm_cutoff printed table row :
  create_training_data mean activity_data molecule_data nm_cutoff =
    Ok (printed, table) ->
  In row table ->
  exists g,
    In g (groupby_canonical_smiles (joined activity_data molecule_data)) /\
    Training.canonical_smiles row = fst g /\
    Training.activity row =
      astype_int (PrimFloat.ltb (mean (snd g)) nm_cutoff).
Proof.
  rewrite create_training_data_returns. cbv zeta. intros H Hin.
  injection H as _ <-. rewrite training_table_eq in Hin.
  apply in_map_iff in Hin. destruct Hin as [g [<- Hg]].
  exists g. simpl. auto.
Qed.

End TrainingSetBuilderFacts.

(** C1 (label correctness).  For every activity table, structure table
    and cutoff, [create_training_data] returns a table, and every row of
    it carries label 1 when the mean of the raw potency values of the
    joined, cleaned rows with that row's structure string is strictly
    below the cutoff, and label 0 otherwise; the label is 0 or 1.  The
    mean is taken of the potencies themselves and the comparison is
    applied to that mean. *)
Theorem create_training_data_label_correct
    (mean : list float -> float)
    (activity_data : list Activity.row) (molecule_data : list Molecule.row)
    (nm_cutoff : float) :
  exists printed table,
    create_training_data mean activity_data molecule_data nm_cutoff =
      Ok (printed, table) /\
    Forall
      (fun row =>
         Training.activity row =
           (if PrimFloat.ltb
                 (mean (potencies (Training.canonical_smiles row)
                                  (joined activity_data molecule_data)))
                 nm_cutoff
            then 1 else 0)%Z /\
         (Training.activity row = 0 \/ Training.activity row = 1)%Z)
      table.
Proof.
  pose proof (create_training_data_returns mean activity_data molecule_data
                nm_cutoff) as Hret.
  cbv zeta in Hret. eexists. eexists. split; [exact Hret|].
  apply Forall_forall. intros row Hin.
  destruct (training_row_group mean _ _ _ _ _ _ Hret Hin) as [g [Hg [Hk Hl]]].
  destruct (groupby_spec (joined activity_data molecule_data)) as [_ Hgroups].
  destruct (Hgroups g Hg) as [Hvals _].
  rewrite Hl, Hk, <- Hvals. split; [reflexivity | apply astype_int_01].
Qed.

(** C2 (training-set uniqueness).  For every activity table, structure
    table and cutoff, the table returned by [create_training_data] has no
    structure string twice, every row has a label (an integer, 0 or 1),
    and its columns are exactly [canonical_smiles] and [activity]: the
    potency column [standard_value] is not among them. *)
Theorem create_training_data_unique_structures
    (mean : list float -> float)
    (activity_data : list Activity.row) (molecule_data : list Molecule.row)
    (nm_cutoff : float) :
  exists printed (table : list Training.row),
    create_training_data mean activity_data molecule_data nm_cutoff =
      Ok (printed, table) /\
    NoDup (map Training.canonical_smiles table) /\
    Forall (fun row => Training.activity row = 0 \/ Training.activity row = 1)%Z
           table /\
    columns Training.row = ["canonical_smiles"; "activity"] /\
    ~ In "standard_value" (columns Training.row).
Proof.
  pose proof (create_training_data_returns mean activity_data molecule_data
                nm_cutoff) as Hret.
  cbv zeta in Hret. eexists. eexists. split; [exact Hret|].
  rewrite training_table_eq.
  destruct (groupby_spec (joined activity_data molecule_data)) as [ND _].
  repeat split.
  - rewrite map_map. simpl. exact ND.
  - apply Forall_forall. intros row Hin. apply in_map_iff in Hin.
    destruct Hin as [g [<- _]]. simpl. apply astype_int_01.
  - simpl. intros [H|[H|[]]]; discriminate.
Qed.

(** C3, as the code has it (join safety).  Every training example comes
    from an activity row and a structure row that carry the same, present
    compound identifier, the structure row supplying its structure
    string.  The number of joined rows left after null-dropping is at most
    the product of the two row counts, and at most the activity row count
    when no identifier occurs twice in the structure table. *)
Theorem create_training_data_join_safe
    (mean : list float -> float)
    (activity_data : list Activity.row) (molecule_data : list Molecule.row)
    (nm_cutoff : float) :
  (forall printed table row,
     create_training_data mean activity_data molecule_data nm_cutoff =
       Ok (printed, table) ->
     In row table ->
     exists act mol id,
       In act activity_data /\ In mol molecule_data /\
       Activity.molecule_chembl_id act = Some id /\
       Molecule.molecule_chembl_id mol = Some id /\
       Molecule.canonical_smiles mol = Some (Training.canonical_smiles row)) /\
  length (dropna (merge_left activity_data molecule_data)) <=
    length activity_data * length molecule_data /\
  (NoDup (map Molecule.molecule_chembl_id molecule_data) ->
   length (dropna (merge_left activity_data molecule_data)) <=
     length activity_data).
Proof.
  split; [|split].
  - intros printed table row Hret Hin.
    destruct (training_row_group mean _ _ _ _ _ _ Hret Hin) as [g [Hg [Hk _]]].
    destruct (groupby_spec (joined activity_data molecule_data)) as [_ Hgroups].
    destruct (Hgroups g Hg) as [_ [r [Hr Hs]]].
    destruct (joined_row_origin _ _ _ Hr)
      as [act [mol [id [s [Hact [Hmol [Ha [Hm [Hms [Hrs _]]]]]]]]]].
    exists act, mol, id. repeat split; try assumption. congruence.
  - apply dropna_merge_length_product.
  - apply dropna_merge_length_unique.
Qed.

(** The row-count bound at a structure table without repeated
    identifiers. *)
Lemma create_training_data_join_safe_witness :
  NoDup (map Molecule.molecule_chembl_id Demo.one_structure) /\
  length (dropna (merge_left Demo.two_measurements Demo.one_structure)) <=
    length Demo.two_measurements.
Proof.
  assert (ND : NoDup (map Molecule.molecule_chembl_id Demo.one_structure))
    by (simpl; constructor; [intros [] | constructor]).
  split; [exact ND|].
  exact (proj2 (proj2 (create_training_data_join_safe
                         Demo.mean Demo.two_measurements Demo.one_structure
                         25%float)) ND).
Defined.

(** C3, as stated, fails: one compound measured twice joins to two rows,
    more than the single row of the structure table. *)
Lemma join_row_count_exceeds_structure_count :
  ~ (length (dropna (merge_left Demo.two_measurements Demo.one_structure)) <=
     Nat.min (length Demo.two_measurements) (length Demo.one_structure)).
Proof. vm_compute. lia. Qed.

Lemma groupby_joined_nil (activity_data : list Activity.row)
    (molecule_data : list Molecule.row) :
  groupby_canonical_smiles (joined activity_data molecule_data) = [] <->
  joined activity_data molecule_data = [].
Proof.
  split.
  - intros Hg. destruct (joined activity_data molecule_data) as [|r df] eqn:E;
      [reflexivity|].
    exfalso.
    assert (Hin : In r (joined activity_data molecule_data))
      by (rewrite E; now left).
    destruct (joined_smiles_present _ _ _ Hin) as [s Hs].
    assert (Hk : In s (map fst (groupby_canonical_smiles
                                  (joined activity_data molecule_data)))).
    { apply groupby_keys. exists r. split; assumption. }
    rewrite E, Hg in Hk. destruct Hk.
  - intros ->. reflexivity.
Qed.

(** C10, as the code has it.  When no row is left after joining and
    null-dropping, [create_training_data] raises nothing: the division
    [100 * actives / len(training_data)] has a NumPy [int64] numerator, so
    it is the IEEE quotient 0/0, a NaN; the report is printed with that
    NaN and an empty training set is returned.  The divisor is zero
    exactly when the cleaned join is empty. *)
Theorem create_training_data_empty_join
    (mean : list float -> float)
    (activity_data : list Activity.row) (molecule_data : list Molecule.row)
    (nm_cutoff : float) :
  (joined activity_data molecule_data = [] ->
   exists percentage,
     create_training_data mean activity_data molecule_data nm_cutoff =
       Ok ([ [Lit "Creating training data"];
             [Lit "Actives: "; Str (Num.NpInt64 0); Lit " (";
              Fmt2f (Num.NpFloat64 percentage);
              Lit "%), Inactives: "; Str (Num.NpInt64 0)] ],
           []) /\
     PrimFloat.is_nan percentage = true) /\
  (forall printed table,
     create_training_data mean activity_data molecule_data nm_cutoff =
       Ok (printed, table) ->
     (len table = Num.PyInt 0 <-> joined activity_data molecule_data = [])).
Proof.
  split.
  - intros Hempty. rewrite create_training_data_returns, Hempty. cbv zeta.
    eexists. split; vm_compute; reflexivity.
  - intros printed table Hret.
    rewrite create_training_data_returns in Hret. cbv zeta in Hret.
    injection Hret as _ <-. rewrite training_table_eq.
    rewrite <- groupby_joined_nil. unfold len. rewrite length_map.
    destruct (groupby_canonical_smiles _) as [|g gs]; simpl.
    + tauto.
    + split; [intros H; injection H; lia | discriminate].
Qed.

(** A measured compound without a structure: the cleaned join is empty. *)
Lemma create_training_data_empty_join_witness :
  joined Demo.one_measurement Demo.no_structure = [] /\
  exists percentage,
    create_training_data Demo.mean Demo.one_measurement Demo.no_structure
      25%float =
      Ok ([ [Lit "Creating training data"];
            [Lit "Actives: "; Str (Num.NpInt64 0); Lit " (";
             Fmt2f (Num.NpFloat64 percentage);
             Lit "%), Inactives: "; Str (Num.NpInt64 0)] ],
          []) /\
    PrimFloat.is_nan percentage = true.
Proof.
  assert (H : joined Demo.one_measurement Demo.no_structure = [])
    by reflexivity.
  split; [exact H|].
  exact (proj1 (create_training_data_empty_join Demo.mean
                  Demo.one_measurement Demo.no_structure 25%float) H).
Defined.

(** C10, as stated, fails: with an empty cleaned join the call returns
    the empty training set; no [ZeroDivisionError] is raised. *)
Lemma empty_join_raises_no_error :
  joined Demo.one_measurement Demo.no_structure = [] /\
  (forall e,
     create_training_data Demo.mean Demo.one_measurement Demo.no_structure
       25%float <> Raise e) /\
  exists printed,
    create_training_data Demo.mean Demo.one_measurement Demo.no_structure
      25%float = Ok (printed, []).
Proof.
  split; [reflexivity|]. split.
  - intros e. vm_compute. discriminate.
  - eexists. vm_compute. reflexivity.
Qed.

(** ** Bioactivity Fetcher *)

Lemma add_keys_incl (cols : list string) (r : record) (k : string) :
  In k cols \/ In k (map fst r) -> In k (add_keys cols r).
Proof.
  unfold add_keys. revert cols.
  induction (map fst r) as [|k0 ks IH]; simpl; intros cols H.
  - destruct H as [H|[]]. exact H.
  - apply IH. destruct H as [H|[H|H]].
    + left. destruct (mem k0 cols); [assumption|]. apply in_or_app. now left.
    + subst k0. left. destruct (mem k cols) eqn:E.
      * now apply mem_In.
      * apply in_or_app. right. now left.
    + now right.
Qed.

Lemma fold_add_keys_incl (records : list record) (cols : list string)
    (k : string) :
  In k cols \/ (exists r, In r records /\ In k (map fst r)) ->
  In k (fold_left add_keys records cols).
Proof.
  revert cols. induction records as [|r records IH]; simpl; intros cols H.
  - destruct H as [H|[r [[] _]]]. exact H.
  - apply IH. destruct H as [H|[r' [[<-|Hin] Hk]]].
    + left. apply add_keys_incl. now left.
    + left. apply add_keys_incl. now right.
    + right. now exists r'.
Qed.

(** A key of some record is a column of the frame. *)
Lemma frame_columns_key (records : list record) (r : record) (k : string) :
  In r records -> In k (map fst r) -> mem k (frame_columns records) = true.
Proof.
  intros Hr Hk. apply mem_In. apply fold_add_keys_incl. right. now exists r.
Qed.

Lemma select_id_value_ok (records : list record) (df : list (cell * cell)) :
  select_id_value records = Ok df ->
  df = map (fun r => (record_get r "molecule_chembl_id",
                      record_get r "standard_value")) records.
Proof.
  unfold select_id_value.
  destruct (mem "molecule_chembl_id" (frame_columns records)
            && mem "standard_value" (frame_columns records));
    [|discriminate].
  intros H. now injection H as <-.
Qed.

Section BioactivityFetcherFacts.

Variable activity_filter :
  forall (target_chembl_id standard_type relation standard_units : string)
         (only : list string), list record.
Variable parse_float : string -> option float.

Lemma to_numeric_ok (col : list cell) (xs : list float) :
  to_numeric parse_float col = Ok xs -> Forall2 (numeric_of parse_float) col xs.
Proof.
  revert xs. induction col as [|c col IH]; simpl; intros xs H.
  - injection H as <-. constructor.
  - destruct c as [s|].
    + destruct (parse_float s) as [x|] eqn:E; [|discriminate].
      destruct (to_numeric parse_float col) as [xs'|e]; [|discriminate].
      simpl in H. injection H as <-. constructor; [exact E | now apply IH].
    + destruct (to_numeric parse_float col) as [xs'|e]; [|discriminate].
      simpl in H. injection H as <-. constructor; [reflexivity | now apply IH].
Qed.

Lemma to_numeric_total (col : list cell) :
  Forall (fun c => match c with
                   | Some s => parse_float s <> None
                   | None => True
                   end) col ->
  exists xs, to_numeric parse_float col = Ok xs.
Proof.
  induction 1 as [|c col Hc _ IH]; simpl.
  - now exists [].
  - destruct IH as [xs ->]. destruct c as [s|]; simpl.
    + destruct (parse_float s) as [x|]; [|congruence]. now eexists.
    + now eexists.
Qed.

Lemma rows_of_records (records : list record) (xs : list float) :
  Forall2 (numeric_of parse_float) (map (fun r => record_get r "standard_value") records) xs ->
  Forall2 (row_of_record parse_float) records
    (map (fun p => Activity.mk (fst p) (snd p))
         (combine (map (fun r => record_get r "molecule_chembl_id") records) xs)).
Proof.
  revert xs. induction records as [|r records IH]; simpl; intros xs H.
  - constructor.
  - inversion H as [|c x col xs' Hx Hrest]; subst. simpl.
    constructor; [|now apply IH].
    split; [reflexivity | exact Hx].
Qed.

Lemma get_target_activity_ok (chembl_id : string) printed table :
  get_target_activity activity_filter parse_float chembl_id =
    Ok (printed, table) ->
  let matching :=
    activity_filter chembl_id "IC50" "=" "nM"
      ["molecule_chembl_id"; "standard_value"] in
  printed =
    [ [Lit "Getting activity data for "; Lit chembl_id];
      [Lit "Found "; Str (Num.PyInt (Z.of_nat (length matching)));
       Lit " activities"] ] /\
  Forall2 (row_of_record parse_float) (firstn 100 matching) table.
Proof.
  unfold get_target_activity.
  set (activities := activity_filter _ _ _ _ _).
  destruct (select_id_value (firstn 100 activities)) as [df|e] eqn:Es;
    [|discriminate].
  apply select_id_value_ok in Es. simpl.
  destruct (to_numeric parse_float (map snd df)) as [xs|e] eqn:En;
    [|discriminate].
  simpl. intros H. injection H as <- <-. split; [reflexivity|].
  apply to_numeric_ok in En. subst df. rewrite map_map in *. simpl in *.
  now apply rows_of_records.
Qed.

End BioactivityFetcherFacts.

(** C6 (the 100-record cap).  Whatever the service reports as matching,
    a table returned by [get_target_activity] holds, row for row, the
    first 100 matching records and nothing else, so at most 100 rows; when
    at most 100 records match it holds all of them.  The call does return
    a table when some record matches, the records carry the two requested
    fields, and the potency texts are numbers. *)
Theorem get_target_activity_first_100
    (activity_filter : string -> string -> string -> string -> list string ->
                       list record)
    (parse_float : string -> option float) (chembl_id : string) :
  let matching :=
    activity_filter chembl_id "IC50" "=" "nM"
      ["molecule_chembl_id"; "standard_value"] in
  (forall printed table,
     get_target_activity activity_filter parse_float chembl_id =
       Ok (printed, table) ->
     In [Lit "Found "; Str (Num.PyInt (Z.of_nat (length matching)));
         Lit " activities"] printed /\
     Forall2 (row_of_record parse_float) (firstn 100 matching) table /\
     length table = Nat.min 100 (length matching) /\
     length table <= 100 /\
     (length matching <= 100 ->
      Forall2 (row_of_record parse_float) matching table)) /\
  (matching <> [] ->
   Forall (fun r => In "molecule_chembl_id" (map fst r) /\
                    In "standard_value" (map fst r) /\
                    match record_get r "standard_value" with
                    | Some s => parse_float s <> None
                    | None => True
                    end) matching ->
   exists printed table,
     get_target_activity activity_filter parse_float chembl_id =
       Ok (printed, table)).
Proof.
  intros matching. split.
  - intros printed table Hret.
    destruct (get_target_activity_ok _ _ _ _ _ Hret) as [Hprinted Hrows].
    fold matching in Hprinted, Hrows. clear Hret. rename Hrows into Hret.
    pose proof (Forall2_length Hret) as Hlen. rewrite length_firstn in Hlen.
    repeat split.
    + rewrite Hprinted. right. now left.
    + exact Hret.
    + now symmetry.
    + lia.
    + intros Hle. now rewrite firstn_all2 in Hret.
  - intros Hne Hall. unfold get_target_activity. fold matching.
    destruct matching as [|r0 rest] eqn:Em; [congruence|].
    assert (Hin0 : In r0 (firstn 100 (r0 :: rest))) by (now left).
    remember (firstn 100 (r0 :: rest)) as records eqn:Erec.
    destruct (Forall_inv Hall) as [Hid [Hsv _]].
    unfold select_id_value.
    rewrite (frame_columns_key records r0 _ Hin0 Hid).
    rewrite (frame_columns_key records r0 _ Hin0 Hsv). simpl.
    rewrite map_map. simpl.
    destruct (to_numeric_total parse_float
                (map (fun r => record_get r "standard_value") records))
      as [xs Hxs].
    + apply Forall_forall. intros c Hc. apply in_map_iff in Hc.
      destruct Hc as [r [<- Hr]].
      assert (Hr' : In r (r0 :: rest))
        by (rewrite Erec in Hr; eapply In_firstn; exact Hr).
      rewrite Forall_forall in Hall. now destruct (Hall r Hr') as [_ [_ H]].
    + rewrite Hxs. simpl. eexists. eexists. reflexivity.
Qed.

(** A target with two well-formed records. *)
Lemma get_target_activity_first_100_witness :
  exists printed table,
    get_target_activity Demo.activity_filter Demo.parse_float "CHEMBL364" =
      Ok (printed, table).
Proof.
  apply (proj2 (get_target_activity_first_100
                  Demo.activity_filter Demo.parse_float "CHEMBL364")).
  - vm_compute. discriminate.
  - vm_compute.
    repeat (apply Forall_cons; [repeat split; auto; discriminate|]).
    apply Forall_nil.
Defined.

(** C9 (no record, no table).  When the query yields no record,
    [get_target_activity] returns no table: the frame built from the empty
    list has no column, and selecting the identifier and potency columns
    raises [KeyError]. *)
Theorem get_target_activity_no_records
    (activity_filter : string -> string -> string -> string -> list string ->
                       list record)
    (parse_float : string -> option float) (chembl_id : string) :
  activity_filter chembl_id "IC50" "=" "nM"
    ["molecule_chembl_id"; "standard_value"] = [] ->
  frame_columns (firstn 100 (@nil record)) = [] /\
  select_id_value [] = Raise KeyError /\
  get_target_activity activity_filter parse_float chembl_id = Raise KeyError.
Proof.
  intros Hnone. unfold get_target_activity. rewrite Hnone.
  repeat split.
Qed.

(** A target the service has no record for. *)
Lemma get_target_activity_no_records_witness :
  get_target_activity Demo.activity_filter Demo.parse_float "CHEMBL0" =
    Raise KeyError.
Proof.
  exact (proj2 (proj2 (get_target_activity_no_records
                         Demo.activity_filter Demo.parse_float "CHEMBL0"
                         eq_refl))).
Defined.

(** ** Reference Library Loader *)

Lemma cell_eqb_sym (a b : cell) : cell_eqb a b = cell_eqb b a.
Proof.
  destruct (cell_eqb a b) eqn:E1, (cell_eqb b a) eqn:E2; try reflexivity.
  - apply cell_eqb_eq in E1. subst. now rewrite cell_eqb_refl in E2.
  - apply cell_eqb_eq in E2. subst. now rewrite cell_eqb_refl in E1.
Qed.

Lemma seen_true (c : cell) (seen : list cell) :
  existsb (cell_eqb c) seen = true <-> In c seen.
Proof.
  rewrite existsb_exists. split.
  - intros [x [Hx Heq]]. apply cell_eqb_eq in Heq. now subst.
  - intros H. exists c. split; [assumption | apply cell_eqb_refl].
Qed.

Lemma seen_false (c : cell) (seen : list cell) :
  existsb (cell_eqb c) seen = false <-> ~ In c seen.
Proof.
  rewrite <- seen_true. destruct (existsb (cell_eqb c) seen); split; congruence.
Qed.

Section ReferenceLibraryFacts.

Variable Mol : Type.
Variable MolFromSmiles : string -> option Mol.
Variable MolToSmiles : Mol -> string.
Variable Meta : Type.
Variable read_csv : string -> result (list (Hub.row Meta)).

Implicit Types (r : Hub.row Meta) (df : list (Hub.row Meta)).

(** [drop_duplicates] keeps exactly the first occurrences. *)
Lemma drop_duplicates_seen_In seen df r :
  In r (drop_duplicates_seen seen df) <->
  ~ In (Hub.smiles r) seen /\ first_with r df = Some r.
Proof.
  unfold first_with. revert seen.
  induction df as [|x df IH]; simpl; intros seen.
  - split; [intros [] | intros [_ H]; discriminate].
  - destruct (existsb (cell_eqb (Hub.smiles x)) seen) eqn:Ex.
    + apply seen_true in Ex. rewrite IH.
      destruct (cell_eqb (Hub.smiles x) (Hub.smiles r)) eqn:E.
      * apply cell_eqb_eq in E. rewrite <- E. split; intros [Hn _]; contradiction.
      * reflexivity.
    + apply seen_false in Ex. simpl. rewrite IH. simpl.
      destruct (cell_eqb (Hub.smiles x) (Hub.smiles r)) eqn:E.
      * apply cell_eqb_eq in E. split.
        -- intros [->|[Hn _]]; [split; [assumption | reflexivity]|].
           exfalso. apply Hn. now left.
        -- intros [_ H]. left. congruence.
      * assert (Hne : Hub.smiles x <> Hub.smiles r).
        { intros Heq. apply cell_eqb_eq in Heq. congruence. }
        split.
        -- intros [->|[Hn H]]; [congruence|].
           split; [|assumption]. intros Hin. apply Hn. now right.
        -- intros [Hn H]. right. split; [|assumption].
           intros [Heq|Hin]; [congruence | contradiction].
Qed.

Lemma drop_duplicates_seen_NoDup seen df :
  NoDup (map Hub.smiles (drop_duplicates_seen seen df)).
Proof.
  revert seen. induction df as [|x df IH]; simpl; intros seen.
  - constructor.
  - destruct (existsb (cell_eqb (Hub.smiles x)) seen); [apply IH|].
    simpl. constructor; [|apply IH].
    intros Hin. apply in_map_iff in Hin. destruct Hin as [r [Heq Hr]].
    apply drop_duplicates_seen_In in Hr. destruct Hr as [Hn _].
    apply Hn. left. now symmetry.
Qed.

Lemma find_dropna_smiles r df :
  notna (Hub.smiles r) = true ->
  first_with r (dropna_smiles df) = first_with r df.
Proof.
  unfold first_with, dropna_smiles. intros Hr.
  induction df as [|x df IH]; simpl; [reflexivity|].
  destruct (notna (Hub.smiles x)) eqn:Ex; simpl.
  - now rewrite IH.
  - destruct (cell_eqb (Hub.smiles x) (Hub.smiles r)) eqn:E; [|exact IH].
    apply cell_eqb_eq in E. congruence.
Qed.

(** The cleaned library: the rows with a canonical structure that are the
    first with it. *)
Lemma cleaned_library_In df r :
  In r (drop_duplicates (dropna_smiles df)) <->
  notna (Hub.smiles r) = true /\ first_with r df = Some r.
Proof.
  unfold drop_duplicates. rewrite drop_duplicates_seen_In. split.
  - intros [_ H]. assert (Hna : notna (Hub.smiles r) = true).
    { apply find_some in H. destruct H as [H _].
      apply filter_In in H. tauto. }
    split; [assumption|]. now rewrite <- find_dropna_smiles.
  - intros [Hna H]. split; [intros []|]. now rewrite find_dropna_smiles.
Qed.

Lemma apply_canon_smiles_ok df canon :
  apply_canon_smiles MolFromSmiles MolToSmiles df = Ok canon ->
  Forall2 (canonical_row MolFromSmiles MolToSmiles) df canon.
Proof.
  revert canon. induction df as [|x df IH]; simpl; intros canon H.
  - injection H as <-. constructor.
  - destruct (Hub.smiles x) as [s|] eqn:Es; [|discriminate].
    destruct (apply_canon_smiles MolFromSmiles MolToSmiles df) as [rest|e];
      [|discriminate].
    simpl in H. injection H as <-.
    constructor; [|now apply IH].
    exists s. simpl. split; [assumption|]. split; [reflexivity|].
    unfold canon_smiles. now destruct (MolFromSmiles s).
Qed.

Lemma find_split {A : Type} (p : A -> bool) (l : list A) (x : A) :
  find p l = Some x ->
  exists l1 l2,
    l = l1 ++ x :: l2 /\ p x = true /\ forall y, In y l1 -> p y = false.
Proof.
  induction l as [|a l IH]; simpl; [discriminate|].
  destruct (p a) eqn:Ea.
  - intros H. injection H as <-. exists [], l.
    split; [reflexivity|]. split; [assumption|]. intros y [].
  - intros H. destruct (IH H) as [l1 [l2 [-> [Hx Hl1]]]].
    exists (a :: l1), l2. split; [reflexivity|]. split; [assumption|].
    intros y [<-|Hy]; [assumption | now apply Hl1].
Qed.

Lemma Forall2_In_l {A B : Type} (R : A -> B -> Prop) (l : list A)
    (l' : list B) (x : A) :
  Forall2 R l l' -> In x l -> exists y, In y l' /\ R x y.
Proof.
  induction 1 as [|a b l l' Hab _ IH]; simpl; [intros []|].
  intros [<-|Hx].
  - exists b. split; [now left | assumption].
  - destruct (IH Hx) as [y [Hy Hxy]]. exists y. split; [now right | assumption].
Qed.

(** The canonicalized row of a raw row has the structure [c] exactly
    when [c] is the canonical structure of the raw row. *)
Lemma canonical_row_structure (raw canon : Hub.row Meta) (c : string) :
  canonical_row MolFromSmiles MolToSmiles raw canon ->
  (Hub.smiles canon = Some c <->
   canonical_structure MolFromSmiles MolToSmiles raw c).
Proof.
  intros [s [Hs [_ Hc]]]. unfold canonical_structure. split.
  - intros Hcanon. destruct (MolFromSmiles s) as [mol|] eqn:Em.
    + exists s, mol. repeat split; try assumption. congruence.
    + congruence.
  - intros [s' [mol [Hs' [Hm <-]]]].
    assert (s' = s) by congruence. subst s'. now rewrite Hm in Hc.
Qed.

(** A row of the cleaned library, traced back to the raw table. *)
Lemma cleaned_library_origin (raw canon : list (Hub.row Meta)) r :
  Forall2 (canonical_row MolFromSmiles MolToSmiles) raw canon ->
  In r (drop_duplicates (dropna_smiles canon)) ->
  exists before first after c,
    raw = before ++ first :: after /\
    canonical_structure MolFromSmiles MolToSmiles first c /\
    (forall r0, In r0 before ->
                ~ canonical_structure MolFromSmiles MolToSmiles r0 c) /\
    r = Hub.mk (Some c) (Hub.meta first).
Proof.
  intros Hcanon Hr. apply cleaned_library_In in Hr. destruct Hr as [Hna Hfirst].
  apply notna_true in Hna. destruct Hna as [c Hc].
  apply find_split in Hfirst.
  destruct Hfirst as [canon1 [canon2 [-> [_ Hbefore]]]].
  apply Forall2_app_inv_r in Hcanon.
  destruct Hcanon as [before [raw2 [H1 [H2 ->]]]].
  inversion H2 as [|first r' after canon2' Hfirst Hafter]; subst.
  exists before, first, after, c. split; [reflexivity|]. split.
  - now apply (canonical_row_structure first r c Hfirst).
  - split.
    + intros r0 Hr0 Hstruct.
      destruct (Forall2_In_l _ _ _ _ H1 Hr0) as [y [Hy Hrow]].
      apply (canonical_row_structure r0 y c Hrow) in Hstruct.
      specialize (Hbefore y Hy). simpl in Hbefore.
      rewrite Hstruct, Hc, cell_eqb_refl in Hbefore. discriminate.
    + destruct Hfirst as [s [_ [Hmeta _]]].
      destruct r as [sm mt]. simpl in *. now subst.
Qed.

(** Every canonical structure of the raw table is in the cleaned
    library. *)
Lemma cleaned_library_complete (raw canon : list (Hub.row Meta)) r0
    (c : string) :
  Forall2 (canonical_row MolFromSmiles MolToSmiles) raw canon ->
  In r0 raw ->
  canonical_structure MolFromSmiles MolToSmiles r0 c ->
  exists r, In r (drop_duplicates (dropna_smiles canon)) /\
            Hub.smiles r = Some c.
Proof.
  intros Hcanon Hr0 Hstruct.
  destruct (Forall2_In_l _ _ _ _ Hcanon Hr0) as [y [Hy Hrow]].
  apply (canonical_row_structure r0 y c Hrow) in Hstruct.
  destruct (find (fun r' => cell_eqb (Hub.smiles r') (Some c)) canon)
    as [r|] eqn:Ef.
  - pose proof (find_some _ _ Ef) as [_ Heq]. apply cell_eqb_eq in Heq.
    exists r. split; [|assumption].
    apply cleaned_library_In. split; [now rewrite Heq|].
    unfold first_with. now rewrite Heq.
  - pose proof (find_none _ _ Ef y Hy) as Hno. simpl in Hno.
    rewrite Hstruct, cell_eqb_refl in Hno. discriminate.
Qed.

Lemma apply_canon_smiles_total df :
  Forall (fun r => notna (Hub.smiles r) = true) df ->
  exists canon, apply_canon_smiles MolFromSmiles MolToSmiles df = Ok canon.
Proof.
  induction 1 as [|x df Hx _ [rest IH]]; simpl.
  - now eexists.
  - apply notna_true in Hx. destruct Hx as [s ->]. rewrite IH. simpl.
    now eexists.
Qed.

Lemma files_print {File : Type} (w : World File) (l : line) :
  files (print w l) = files w /\ requests (print w l) = requests w.
Proof. split; reflexivity. Qed.

Lemma exists_write_file {File : Type} (w : World File) (path : string)
    (content : File) :
  files (write_file w path content) path = Some content.
Proof. simpl. now rewrite String.eqb_refl. Qed.

(** What one call does, by cases. *)
Lemma download_cases (w : World (list (Hub.row Meta))) :
  let res := download_drug_repurposing_hub MolFromSmiles MolToSmiles read_csv w in
  (exists_ w hub_path = true /\
   res = (print w [Lit "Drug Repurposing Hub dataset already downloaded."],
          Ok tt)) \/
  (exists_ w hub_path = false /\
   requests (fst res) = requests w ++ [hub_url] /\
   ((exists e, snd res = Raise e /\ files (fst res) = files w /\
               (read_csv hub_url = Raise e \/
                exists raw, read_csv hub_url = Ok raw /\
                  apply_canon_smiles MolFromSmiles MolToSmiles raw = Raise e)) \/
    (exists raw canon,
       read_csv hub_url = Ok raw /\
       apply_canon_smiles MolFromSmiles MolToSmiles raw = Ok canon /\
       snd res = Ok tt /\
       files (fst res) hub_path =
         Some (drop_duplicates (dropna_smiles canon))))).
Proof.
  cbv zeta. unfold download_drug_repurposing_hub.
  destruct (exists_ w hub_path) eqn:Ex; [left; split; reflexivity|].
  right. split; [reflexivity|].
  destruct (read_csv hub_url) as [raw|e] eqn:Er.
  - destruct (apply_canon_smiles MolFromSmiles MolToSmiles raw) as [canon|e]
      eqn:Ea.
    + split; [reflexivity|]. right. exists raw, canon.
      repeat split; try reflexivity. exact Ea.
    + split; [reflexivity|]. left. exists e. repeat split.
      right. exists raw. split; [reflexivity | assumption].
  - split; [reflexivity|]. left. exists e. repeat split. now left.
Qed.

End ReferenceLibraryFacts.

(** C4 (idempotence by file existence).  When the library file exists,
    whatever it holds and whatever the network would answer, a call ends
    normally with the files and the list of network requests unchanged;
    when it does not exist the remote table is requested.  So after a call
    that ended normally the file exists, and a second call ends normally
    and leaves files and requests as the first call left them. *)
Theorem download_drug_repurposing_hub_idempotent
    {Mol : Type} (MolFromSmiles : string -> option Mol)
    (MolToSmiles : Mol -> string) {Meta : Type}
    (read_csv : string -> result (list (Hub.row Meta)))
    (w : World (list (Hub.row Meta))) :
  let download :=
    download_drug_repurposing_hub MolFromSmiles MolToSmiles read_csv in
  let twice := download_twice MolFromSmiles MolToSmiles read_csv in
  (exists_ w hub_path = true ->
   snd (download w) = Ok tt /\
   files (fst (download w)) = files w /\
   requests (fst (download w)) = requests w) /\
  (exists_ w hub_path = false ->
   requests (fst (download w)) = requests w ++ [hub_url]) /\
  (snd (download w) = Ok tt ->
   exists_ (fst (download w)) hub_path = true /\
   snd (twice w) = Ok tt /\
   files (fst (twice w)) = files (fst (download w)) /\
   requests (fst (twice w)) = requests (fst (download w))).
Proof.
  cbv zeta.
  assert (Hcached : forall w0 : World (list (Hub.row Meta)),
    exists_ w0 hub_path = true ->
    snd (download_drug_repurposing_hub MolFromSmiles MolToSmiles read_csv w0)
      = Ok tt /\
    files (fst (download_drug_repurposing_hub MolFromSmiles MolToSmiles
                  read_csv w0)) = files w0 /\
    requests (fst (download_drug_repurposing_hub MolFromSmiles MolToSmiles
                     read_csv w0)) = requests w0).
  { intros w0 Hex. unfold download_drug_repurposing_hub. rewrite Hex.
    repeat split. }
  split; [apply Hcached|]. split.
  - intros Hex.
    destruct (download_cases _ MolFromSmiles MolToSmiles _ read_csv w)
      as [[Hex' _]|[_ [Hreq _]]]; [congruence | exact Hreq].
  - intros Hok.
    assert (Hthere :
      exists_ (fst (download_drug_repurposing_hub MolFromSmiles MolToSmiles
                      read_csv w)) hub_path = true).
    { destruct (download_cases _ MolFromSmiles MolToSmiles _ read_csv w)
        as [[Hex ->]|[_ [_ [[e [He _]]|[raw [canon [_ [_ [_ Hfile]]]]]]]]].
      - exact Hex.
      - rewrite He in Hok. discriminate.
      - unfold exists_. now rewrite Hfile. }
    split; [exact Hthere|]. unfold download_twice. now apply Hcached.
Qed.

(** A world that has the file, with the network down; and two calls
    from a world without the file: one request. *)
Lemma download_drug_repurposing_hub_idempotent_witness :
  exists_ Demo.cached_world hub_path = true /\
  snd (download_drug_repurposing_hub Demo.MolFromSmiles Demo.MolToSmiles
         Demo.offline_read_csv Demo.cached_world) = Ok tt /\
  requests (fst (download_twice Demo.MolFromSmiles Demo.MolToSmiles
                   Demo.online_read_csv Demo.fresh_world)) = [hub_url].
Proof.
  split; [reflexivity|]. split.
  - exact (proj1 (proj1 (download_drug_repurposing_hub_idempotent
                           Demo.MolFromSmiles Demo.MolToSmiles
                           Demo.offline_read_csv Demo.cached_world)
                    eq_refl)).
  - rewrite (proj2 (proj2 (proj2 (proj2
               (proj2 (download_drug_repurposing_hub_idempotent
                         Demo.MolFromSmiles Demo.MolToSmiles
                         Demo.online_read_csv Demo.fresh_world))
               eq_refl)))).
    reflexivity.
Defined.

(** C5 (reference-library invariant).  Starting without the library
    file, for every raw table the download delivers: whatever library is
    written has no structure twice and none missing.  It consists exactly
    of the rows of the canonicalized table that have a structure and are
    the first row with it, where the canonicalized table is the raw table
    with the structure of every row replaced by the canonical text of the
    molecule its string parses to, or by a missing value when the parser
    returns no molecule.  In terms of the raw table: every row written
    stands for a raw row whose string parses, carries the canonical text
    of its molecule and its other columns, and no raw row before it has
    that canonical structure; and every canonical structure of a raw row
    is in the library.  A library is written whenever every [smiles] cell
    of the raw table holds a string. *)
Theorem download_drug_repurposing_hub_clean_library
    {Mol : Type} (MolFromSmiles : string -> option Mol)
    (MolToSmiles : Mol -> string) {Meta : Type}
    (read_csv : string -> result (list (Hub.row Meta)))
    (w : World (list (Hub.row Meta))) (raw : list (Hub.row Meta)) :
  exists_ w hub_path = false ->
  read_csv hub_url = Ok raw ->
  let res :=
    download_drug_repurposing_hub MolFromSmiles MolToSmiles read_csv w in
  (forall library,
     files (fst res) hub_path = Some library ->
     NoDup (map Hub.smiles library) /\
     Forall (fun r => notna (Hub.smiles r) = true) library /\
     (exists canon,
        Forall2 (canonical_row MolFromSmiles MolToSmiles) raw canon /\
        forall r, In r library <->
                  notna (Hub.smiles r) = true /\ first_with r canon = Some r) /\
     (forall r, In r library ->
        exists before first after c,
          raw = before ++ first :: after /\
          canonical_structure MolFromSmiles MolToSmiles first c /\
          (forall r0, In r0 before ->
                      ~ canonical_structure MolFromSmiles MolToSmiles r0 c) /\
          r = Hub.mk (Some c) (Hub.meta first)) /\
     (forall r0 c,
        In r0 raw ->
        canonical_structure MolFromSmiles MolToSmiles r0 c ->
        exists r, In r library /\ Hub.smiles r = Some c)) /\
  (Forall (fun r => notna (Hub.smiles r) = true) raw ->
   snd res = Ok tt /\ exists library, files (fst res) hub_path = Some library).
Proof.
  intros Hex Hread. cbv zeta.
  assert (Hnone : files w hub_path = None).
  { unfold exists_ in Hex. destruct (files w hub_path); [discriminate|reflexivity]. }
  destruct (download_cases _ MolFromSmiles MolToSmiles _ read_csv w)
    as [[Hex' _]|[_ [_ [[e [He [Hf Hwhy]]]|[raw' [canon [Hr [Ha [Hok Hfile]]]]]]]]];
    [congruence | |].
  - split.
    + intros library Hlib. rewrite Hf, Hnone in Hlib. discriminate.
    + intros Hall. exfalso.
      destruct Hwhy as [Hwhy|[raw' [Hr Hwhy]]]; [congruence|].
      assert (raw' = raw) by congruence. subst raw'.
      destruct (apply_canon_smiles_total _ MolFromSmiles MolToSmiles _ raw Hall)
        as [canon Hc].
      congruence.
  - assert (raw' = raw) by congruence. subst raw'. split.
    + intros library Hlib. rewrite Hfile in Hlib. injection Hlib as <-.
      split; [apply drop_duplicates_seen_NoDup|]. split.
      * apply Forall_forall. intros r Hr'.
        apply cleaned_library_In in Hr'. tauto.
      * pose proof (apply_canon_smiles_ok _ MolFromSmiles MolToSmiles _
                      raw canon Ha) as Hcanon.
        split; [|split].
        -- exists canon. split; [exact Hcanon|].
           intros r. apply cleaned_library_In.
        -- intros r Hr'.
           now apply (cleaned_library_origin _ MolFromSmiles MolToSmiles _
                        raw canon).
        -- intros r0 c Hr0 Hstruct.
           now apply (cleaned_library_complete _ MolFromSmiles MolToSmiles _
                        raw canon r0).
    + intros _. split; [exact Hok|]. eexists. exact Hfile.
Qed.

(** A raw table of four rows, all with a [smiles] string. *)
Lemma download_drug_repurposing_hub_clean_library_witness :
  snd (download_drug_repurposing_hub Demo.MolFromSmiles Demo.MolToSmiles
         Demo.online_read_csv Demo.fresh_world) = Ok tt /\
  exists library,
    files (fst (download_drug_repurposing_hub Demo.MolFromSmiles
                  Demo.MolToSmiles Demo.online_read_csv Demo.fresh_world))
          hub_path = Some library.
Proof.
  apply (proj2 (download_drug_repurposing_hub_clean_library
                  Demo.MolFromSmiles Demo.MolToSmiles Demo.online_read_csv
                  Demo.fresh_world Demo.raw_hub eq_refl eq_refl)).
  repeat constructor.
Defined.

(** ** Result Visualizer *)

Lemma StronglySorted_app_inv {A : Type} (R : A -> A -> Prop) (l1 l2 : list A) :
  StronglySorted R (l1 ++ l2) ->
  StronglySorted R l1 /\ StronglySorted R l2 /\
  forall x y, In x l1 -> In y l2 -> R x y.
Proof.
  induction l1 as [|a l1 IH]; simpl; intros H.
  - split; [constructor|]. split; [assumption|]. intros x y [].
  - apply StronglySorted_inv in H. destruct H as [Hs Hall].
    destruct (IH Hs) as [H1 [H2 H12]].
    apply Forall_app in Hall. destruct Hall as [Ha1 Ha2].
    split; [now constructor|]. split; [assumption|].
    intros x y [<-|Hx] Hy.
    + rewrite Forall_forall in Ha2. now apply Ha2.
    + now apply H12.
Qed.

(** The order of scores is total and transitive, NaN being the least
    score. *)
Lemma SFcompare_refl (f : spec_float) :
  sf_is_nan f = false -> SFcompare f f = Some Eq.
Proof.
  destruct f as [s|s| |s m e]; simpl; try discriminate; intros _;
    try reflexivity.
  - now destruct s.
  - rewrite Z.compare_refl, Pos.compare_cont_refl. now destruct s.
Qed.

Lemma is_nan_spec (x : float) : PrimFloat.is_nan x = sf_is_nan (Prim2SF x).
Proof.
  unfold PrimFloat.is_nan. rewrite FloatAxioms.eqb_spec. unfold SFeqb.
  destruct (sf_is_nan (Prim2SF x)) eqn:E.
  - destruct (Prim2SF x); try discriminate. reflexivity.
  - now rewrite (SFcompare_refl _ E).
Qed.

Lemma score_ge_spec (a b : float) :
  score_ge a b = sf_ge (Prim2SF a) (Prim2SF b).
Proof. unfold score_ge, sf_ge. now rewrite !is_nan_spec, leb_spec. Qed.

Lemma sf_ge_total (a b : spec_float) : sf_ge a b = true \/ sf_ge b a = true.
Proof.
  unfold sf_ge, SFleb.
  destruct a as [sa|sa| |sa ma ea], b as [sb|sb| |sb mb eb]; simpl; auto;
    try (destruct sa; simpl; auto; fail);
    try (destruct sb; simpl; auto; fail);
    try (destruct sa, sb; simpl; auto; fail).
  pos_compare.
  rewrite (Z.compare_antisym ea eb), (Pos.compare_antisym ma mb).
  destruct sa, sb; simpl; auto;
    destruct (ea ?= eb)%Z; simpl; auto;
    destruct (ma ?= mb)%positive; simpl; auto.
Qed.

Lemma sf_ge_trans (a b c : spec_float) :
  sf_ge a b = true -> sf_ge b c = true -> sf_ge a c = true.
Proof.
  unfold sf_ge, SFleb.
  destruct a as [sa|sa| |sa ma ea], b as [sb|sb| |sb mb eb],
           c as [sc|sc| |sc mc ec]; simpl; auto; try discriminate;
    try (destruct sa; simpl; auto; try discriminate; fail);
    try (destruct sb; simpl; auto; try discriminate; fail);
    try (destruct sc; simpl; auto; try discriminate; fail);
    try (destruct sa, sb; simpl; auto; try discriminate; fail);
    try (destruct sa, sc; simpl; auto; try discriminate; fail);
    try (destruct sb, sc; simpl; auto; try discriminate; fail);
    try (destruct sa, sb, sc; simpl; auto; try discriminate; fail).
  all: pos_compare.
  all: destruct sa, sb, sc; simpl; auto; try discriminate.
  all: destruct (Z.compare_spec eb ea), (Z.compare_spec ec eb),
                (Z.compare_spec ec ea);
       simpl; auto; try discriminate; try lia.
  all: destruct (Pos.compare_spec mb ma), (Pos.compare_spec mc mb),
                (Pos.compare_spec mc ma);
       simpl; auto; try discriminate; try lia.
Qed.

Lemma ranks_before_total (r1 r2 : Prediction.row) :
  ranks_before r1 r2 \/ ranks_before r2 r1.
Proof. unfold ranks_before. rewrite !score_ge_spec. apply sf_ge_total. Qed.

Lemma ranks_before_trans (r1 r2 r3 : Prediction.row) :
  ranks_before r1 r2 -> ranks_before r2 r3 -> ranks_before r1 r3.
Proof. unfold ranks_before. rewrite !score_ge_spec. apply sf_ge_trans. Qed.

Lemma insert_row_perm (r : Prediction.row) (df : list Prediction.row) :
  Permutation (Demo.insert_row r df) (r :: df).
Proof.
  induction df as [|h df IH]; simpl; [reflexivity|].
  destruct (score_ge (Prediction.activity r) (Prediction.activity h));
    [reflexivity|].
  rewrite IH. apply perm_swap.
Qed.

Lemma demo_sort_perm (df : list Prediction.row) :
  Permutation (Demo.sort_values_activity df) df.
Proof.
  induction df as [|r df IH]; simpl; [reflexivity|].
  rewrite insert_row_perm. now apply perm_skip.
Qed.

Lemma insert_row_sorted (r : Prediction.row) (df : list Prediction.row) :
  StronglySorted ranks_before df ->
  StronglySorted ranks_before (Demo.insert_row r df).
Proof.
  induction 1 as [|h df Hs IH Hall]; simpl.
  - repeat constructor.
  - destruct (score_ge (Prediction.activity r) (Prediction.activity h)) eqn:E.
    + constructor; [now constructor|].
      constructor; [exact E|].
      eapply Forall_impl; [|exact Hall].
      intros x Hx. eapply ranks_before_trans; [exact E | exact Hx].
    + constructor; [exact IH|].
      eapply Permutation_Forall; [symmetry; apply insert_row_perm|].
      constructor; [|exact Hall].
      destruct (ranks_before_total r h) as [H|H]; [|exact H].
      unfold ranks_before in H. congruence.
Qed.

(** The stable insertion sort meets the contract of [sort_values] on
    every table. *)
Lemma demo_sort_sorted (df : list Prediction.row) :
  sorted_descending df (Demo.sort_values_activity df).
Proof.
  split; [apply demo_sort_perm|].
  induction df as [|r df IH]; simpl; [constructor|].
  now apply insert_row_sorted.
Qed.

Section ResultVisualizerFacts.

Variable Mol : Type.
Variable MolFromSmiles : string -> option Mol.
Variable Image : Type.
Variable MolsToGridImage :
  list (option Mol) -> list line -> nat -> result Image.
Variable read_csv : string -> result (list Prediction.row).
Variable sort_values_activity : list Prediction.row -> list Prediction.row.

(** The comprehension over the structure column: the parser's results
    when every cell holds a string, its rejection when one is missing. *)
Lemma parse_structures_strings (strings : list string) :
  parse_structures MolFromSmiles (map Some strings) =
  Ok (map MolFromSmiles strings).
Proof.
  induction strings as [|s strings IH]; simpl; [reflexivity|].
  now rewrite IH.
Qed.

Lemma parse_structures_missing (cells : list cell) :
  In None cells -> parse_structures MolFromSmiles cells = Raise TypeError.
Proof.
  induction cells as [|c cells IH]; simpl; [intros []|].
  destruct c as [s|]; [|reflexivity].
  intros [H|H]; [discriminate|]. now rewrite (IH H).
Qed.

Lemma cells_cases (cells : list cell) :
  (exists strings, cells = map Some strings) \/ In None cells.
Proof.
  induction cells as [|c cells [[strings ->]|IH]].
  - left. now exists [].
  - destruct c as [s|].
    + left. now exists (s :: strings).
    + right. now left.
  - right. now right.
Qed.

(** The call made once the file is read and every selected row has a
    structure string: the renderer receives the parsed structures and the
    formatted scores of [top_predictions]. *)
Lemma visualize_top_predictions_call (search : string)
    (df : list Prediction.row) (strings : list string) :
  read_csv (predictions_path search) = Ok df ->
  map Prediction.smiles (top_predictions sort_values_activity df) =
    map Some strings ->
  visualize_top_predictions MolFromSmiles MolsToGridImage read_csv
    sort_values_activity search =
  MolsToGridImage
    (map MolFromSmiles strings)
    (map (fun row => [Fmt2f (Num.PyFloat (Prediction.activity row))])
         (top_predictions sort_values_activity df))
    3.
Proof.
  intros Hread Hcells. unfold visualize_top_predictions. rewrite Hread. simpl.
  rewrite Hcells, parse_structures_strings. simpl. now rewrite map_map.
Qed.

(** With a missing structure cell among the selected rows the parser's
    rejection ends the call; the renderer is not reached. *)
Lemma visualize_top_predictions_missing (search : string)
    (df : list Prediction.row) :
  read_csv (predictions_path search) = Ok df ->
  In None (map Prediction.smiles (top_predictions sort_values_activity df)) ->
  visualize_top_predictions MolFromSmiles MolsToGridImage read_csv
    sort_values_activity search = Raise TypeError.
Proof.
  intros Hread Hmissing. unfold visualize_top_predictions. rewrite Hread.
  simpl. now rewrite (parse_structures_missing _ Hmissing).
Qed.

Lemma top_predictions_split (df : list Prediction.row) :
  sorted_descending df (sort_values_activity df) ->
  let top := top_predictions sort_values_activity df in
  let rest := skipn 9 (sort_values_activity df) in
  length top = Nat.min 9 (length df) /\
  Permutation (top ++ rest) df /\
  StronglySorted ranks_before top /\
  (forall t r, In t top -> In r rest -> ranks_before t r).
Proof.
  intros [Hperm Hsorted]. cbv zeta. unfold top_predictions, head.
  rewrite <- (firstn_skipn 9 (sort_values_activity df)) in Hsorted.
  apply StronglySorted_app_inv in Hsorted. destruct Hsorted as [H1 [_ H12]].
  repeat split.
  - rewrite length_firstn. now rewrite (Permutation_length Hperm).
  - now rewrite firstn_skipn.
  - exact H1.
  - exact H12.
Qed.

End ResultVisualizerFacts.

(** C7 (visualization ranking), as the code has it.  For a predictions
    file of at least 9 rows, sorted by the library in descending score
    order, the visualizer selects exactly 9 rows; they are in descending
    score order, and every row left out scores no higher than each of
    them.  When each of the nine has a structure string it renders them
    through one grid call with 3 entries per row, each entry labelled
    with its score formatted [:.2f]; when the structure cell of one of
    the nine is missing, the parser's [TypeError] ends the call and
    nothing is rendered. *)
Theorem visualize_top_predictions_top_9
    {Mol : Type} (MolFromSmiles : string -> option Mol) {Image : Type}
    (MolsToGridImage : list (option Mol) -> list line -> nat -> result Image)
    (read_csv : string -> result (list Prediction.row))
    (sort_values_activity : list Prediction.row -> list Prediction.row)
    (search : string) (df : list Prediction.row) :
  read_csv (predictions_path search) = Ok df ->
  9 <= length df ->
  sorted_descending df (sort_values_activity df) ->
  exists top rest,
    top = top_predictions sort_values_activity df /\
    length top = 9 /\
    Permutation (top ++ rest) df /\
    StronglySorted ranks_before top /\
    (forall t r, In t top -> In r rest -> ranks_before t r) /\
    (forall strings,
       map Prediction.smiles top = map Some strings ->
       visualize_top_predictions MolFromSmiles MolsToGridImage read_csv
         sort_values_activity search =
       MolsToGridImage
         (map MolFromSmiles strings)
         (map (fun row => [Fmt2f (Num.PyFloat (Prediction.activity row))]) top)
         3) /\
    (In None (map Prediction.smiles top) ->
     visualize_top_predictions MolFromSmiles MolsToGridImage read_csv
       sort_values_activity search = Raise TypeError).
Proof.
  intros Hread Hlen Hsorted.
  destruct (top_predictions_split sort_values_activity df Hsorted)
    as [Hl [Hp [Hs Hr]]].
  exists (top_predictions sort_values_activity df),
         (skipn 9 (sort_values_activity df)).
  split; [reflexivity|]. split; [lia|]. split; [exact Hp|].
  split; [exact Hs|]. split; [exact Hr|]. split.
  - intros strings Hcells. now apply visualize_top_predictions_call.
  - intros Hmissing. now apply (visualize_top_predictions_missing _ _ _ _ _ _ _ df).
Qed.

(** A predictions file of ten rows, sorted by the stable insertion sort. *)
Lemma visualize_top_predictions_top_9_witness :
  exists top rest,
    top = top_predictions Demo.sort_values_activity Demo.ten_predictions /\
    length top = 9 /\
    Permutation (top ++ rest) Demo.ten_predictions /\
    StronglySorted ranks_before top /\
    (forall t r, In t top -> In r rest -> ranks_before t r) /\
    (forall strings,
       map Prediction.smiles top = map Some strings ->
       visualize_top_predictions Demo.MolFromSmiles Demo.MolsToGridImage
         Demo.read_predictions Demo.sort_values_activity
         "Plasmodium falciparum" =
       Demo.MolsToGridImage
         (map Demo.MolFromSmiles strings)
         (map (fun row => [Fmt2f (Num.PyFloat (Prediction.activity row))]) top)
         3) /\
    (In None (map Prediction.smiles top) ->
     visualize_top_predictions Demo.MolFromSmiles Demo.MolsToGridImage
       Demo.read_predictions Demo.sort_values_activity
       "Plasmodium falciparum" = Raise TypeError).
Proof.
  apply (visualize_top_predictions_top_9 Demo.MolFromSmiles
           Demo.MolsToGridImage Demo.read_predictions
           Demo.sort_values_activity "Plasmodium falciparum"
           Demo.ten_predictions).
  - reflexivity.
  - simpl. lia.
  - apply demo_sort_sorted.
Defined.

(** C7, as stated, fails: a predictions file of nine rows whose best
    scored row has an empty structure field is not rendered.  The nine
    rows are selected, the grid routine at hand never fails, and the call
    ends with the parser's [TypeError]. *)
Lemma nine_predictions_are_not_rendered :
  9 <= length Demo.nine_predictions /\
  Demo.read_predictions (predictions_path "Homo sapiens") =
    Ok Demo.nine_predictions /\
  sorted_descending Demo.nine_predictions
    (Demo.sort_values_activity Demo.nine_predictions) /\
  length (top_predictions Demo.sort_values_activity Demo.nine_predictions)
    = 9 /\
  (forall mols legends molsPerRow,
     exists image,
       Demo.MolsToGridImage mols legends molsPerRow = Ok image) /\
  visualize_top_predictions Demo.MolFromSmiles Demo.MolsToGridImage
    Demo.read_predictions Demo.sort_values_activity "Homo sapiens" =
  Raise TypeError.
Proof.
  split; [simpl; lia|]. split; [reflexivity|].
  split; [apply demo_sort_sorted|]. split; [reflexivity|]. split.
  - intros mols legends molsPerRow. eexists. reflexivity.
  - reflexivity.
Qed.

(** C8, as the code has it.  The visualizer checks neither the number of
    rows nor the outcome of parsing.  Once the file is read, the selected
    rows are the top rows, at most 9 and fewer when the file has fewer.
    Either each of them has a structure string, and then the result is
    the result of the grid call on them, a string that does not parse
    being handed over as a missing molecule; or the structure cell of one
    of them is missing, and then the parser's [TypeError] ends the call.
    A failure to read the file is passed on. *)
Theorem visualize_top_predictions_unchecked
    {Mol : Type} (MolFromSmiles : string -> option Mol) {Image : Type}
    (MolsToGridImage : list (option Mol) -> list line -> nat -> result Image)
    (read_csv : string -> result (list Prediction.row))
    (sort_values_activity : list Prediction.row -> list Prediction.row)
    (search : string) :
  (forall df,
     read_csv (predictions_path search) = Ok df ->
     let top := top_predictions sort_values_activity df in
     (forall strings,
        map Prediction.smiles top = map Some strings ->
        visualize_top_predictions MolFromSmiles MolsToGridImage read_csv
          sort_values_activity search =
        MolsToGridImage
          (map MolFromSmiles strings)
          (map (fun row => [Fmt2f (Num.PyFloat (Prediction.activity row))])
               top)
          3) /\
     (In None (map Prediction.smiles top) ->
      visualize_top_predictions MolFromSmiles MolsToGridImage read_csv
        sort_values_activity search = Raise TypeError) /\
     ((exists strings, map Prediction.smiles top = map Some strings) \/
      In None (map Prediction.smiles top)) /\
     (sorted_descending df (sort_values_activity df) ->
      length top = Nat.min 9 (length df))) /\
  (forall e,
     read_csv (predictions_path search) = Raise e ->
     visualize_top_predictions MolFromSmiles MolsToGridImage read_csv
       sort_values_activity search = Raise e).
Proof.
  split.
  - intros df Hread. cbv zeta. split; [|split; [|split]].
    + intros strings Hcells. now apply visualize_top_predictions_call.
    + intros Hmissing.
      now apply (visualize_top_predictions_missing _ _ _ _ _ _ _ df).
    + apply cells_cases.
    + intros Hsorted.
      now destruct (top_predictions_split sort_values_activity df Hsorted).
  - intros e Hread. unfold visualize_top_predictions. now rewrite Hread.
Qed.

(** A predictions file of two rows. *)
Lemma visualize_top_predictions_unchecked_witness :
  visualize_top_predictions Demo.MolFromSmiles Demo.MolsToGridImage
    Demo.read_predictions Demo.sort_values_activity "SARS-CoV-2" =
  Demo.MolsToGridImage
    [Some "CCO"; None]
    [[Fmt2f (Num.PyFloat 0.75)]; [Fmt2f (Num.PyFloat 0.25)]]
    3.
Proof.
  exact (proj1 (proj1 (visualize_top_predictions_unchecked
                         Demo.MolFromSmiles Demo.MolsToGridImage
                         Demo.read_predictions Demo.sort_values_activity
                         "SARS-CoV-2")
                  Demo.two_predictions eq_refl)
           ["CCO"; "not a structure"]%string eq_refl).
Defined.

(** C8, as stated, fails: a predictions file with two rows, one of them
    a string the parser rejects, is rendered; the call returns a grid
    with one drawn and one blank cell. *)
Lemma two_predictions_are_rendered :
  length Demo.two_predictions < 9 /\
  (exists row s,
     In row (top_predictions Demo.sort_values_activity Demo.two_predictions) /\
     Prediction.smiles row = Some s /\
     Demo.MolFromSmiles s = None) /\
  visualize_top_predictions Demo.MolFromSmiles Demo.MolsToGridImage
    Demo.read_predictions Demo.sort_values_activity "SARS-CoV-2" =
  Ok [ [ (Some "CCO", [Fmt2f (Num.PyFloat 0.75)]);
         (None, [Fmt2f (Num.PyFloat 0.25)]) ] ].
Proof.
  split; [simpl; lia|]. split.
  - exists (Prediction.mk (Some "not a structure") 0.25), "not a structure".
    split; [|split; reflexivity].
    vm_compute. right. now left.
  - reflexivity.
Qed.

(** ** Worked examples *)

(** Two measurements, 10 nM and 50 nM, of one structure with cutoff 25:
    the mean 30 is not below the cutoff, so the structure is inactive,
    although one of its measurements is below it. *)
Example create_training_data_two_measurements :
  create_training_data Demo.mean Demo.two_measurements Demo.one_structure 25 =
  Ok ([ [Lit "Creating training data"];
        [Lit "Actives: "; Str (Num.NpInt64 0); Lit " (";
         Fmt2f (Num.NpFloat64 0); Lit "%), Inactives: ";
         Str (Num.NpInt64 1)] ],
      [Training.mk "CC(=O)Oc1ccccc1C(=O)O" 0]).
Proof. reflexivity. Qed.

Example create_training_data_cutoff_500 :
  create_training_data Demo.mean Demo.two_measurements Demo.one_structure 500 =
  Ok ([ [Lit "Creating training data"];
        [Lit "Actives: "; Str (Num.NpInt64 1); Lit " (";
         Fmt2f (Num.NpFloat64 100); Lit "%), Inactives: ";
         Str (Num.NpInt64 0)] ],
      [Training.mk "CC(=O)Oc1ccccc1C(=O)O" 1]).
Proof. reflexivity. Qed.

Example get_target_activity_two_records :
  get_target_activity Demo.activity_filter Demo.parse_float "CHEMBL364" =
  Ok ([ [Lit "Getting activity data for "; Lit "CHEMBL364"];
        [Lit "Found "; Str (Num.PyInt 2); Lit " activities"] ],
      [Activity.mk (Some "CHEMBL25") 120;
       Activity.mk (Some "CHEMBL112") PrimFloat.nan]).
Proof. reflexivity. Qed.

Example download_drug_repurposing_hub_fresh :
  let w := fst (download_drug_repurposing_hub Demo.MolFromSmiles
                  Demo.MolToSmiles Demo.online_read_csv Demo.fresh_world) in
  files w hub_path =
    Some [Hub.mk (Some "CCO") "ethanol"; Hub.mk (Some "N") "ammonia"] /\
  requests w = [hub_url] /\
  stdout w =
    [ [Lit "Drug Repurposing Hub dataset downloaded and processed."];
      [Lit "Number of unique SMILES: "; Str (Num.PyInt 2)] ].
Proof. repeat split. Qed.

Example predictions_path_replaces_spaces :
  predictions_path "Plasmodium falciparum" =
  "data/Plasmodium_falciparum_predictions.csv".
Proof. reflexivity. Qed.

(** * Further properties *)

(** ** Strings and paths *)

Lemma append_nil_r (s : string) : (s ++ "")%string = s.
Proof. induction s as [|c s IH]; simpl; [reflexivity | now rewrite IH]. Qed.

Lemma append_assoc (s1 s2 s3 : string) :
  ((s1 ++ s2) ++ s3)%string = (s1 ++ s2 ++ s3)%string.
Proof. induction s1 as [|c s1 IH]; simpl; [reflexivity | now rewrite IH]. Qed.

Lemma length_append (s1 s2 : string) :
  String.length (s1 ++ s2) = String.length s1 + String.length s2.
Proof. induction s1 as [|c s1 IH]; simpl; [reflexivity | now rewrite IH]. Qed.

Lemma contains_append (c : ascii) (s1 s2 : string) :
  contains c (s1 ++ s2) = contains c s1 || contains c s2.
Proof.
  induction s1 as [|c' s1 IH]; simpl; [reflexivity|].
  rewrite IH. now rewrite orb_assoc.
Qed.

(** X1.  [s.replace(" ", "_")] leaves no space, keeps the length, changes
    no other character (in particular it brings in no slash), and is the
    identity exactly on the strings without a space. *)
Theorem replace_space_no_space (s : string) :
  contains " "%char (replace_space s) = false /\
  String.length (replace_space s) = String.length s /\
  (forall c, c <> " "%char -> c <> "_"%char ->
             contains c (replace_space s) = contains c s) /\
  (replace_space s = s <-> contains " "%char s = false) /\
  replace_space (replace_space s) = replace_space s.
Proof.
  induction s as [|c s [IH1 [IH2 [IH3 [IH4 IH5]]]]]; cbn -[Ascii.eqb].
  - repeat split; reflexivity.
  - destruct (Ascii.eqb c " "%char) eqn:E; cbn -[Ascii.eqb].
    + apply Ascii.eqb_eq in E. subst c.
      change (Ascii.eqb "_"%char " "%char) with false. cbn -[Ascii.eqb].
      split; [exact IH1|]. split; [now rewrite IH2|]. split; [|split].
      * intros c Hs Hu. rewrite (IH3 c Hs Hu).
        destruct (Ascii.eqb "_"%char c) eqn:E1;
          [apply Ascii.eqb_eq in E1; congruence|].
        destruct (Ascii.eqb " "%char c) eqn:E2;
          [apply Ascii.eqb_eq in E2; congruence|].
        reflexivity.
      * split; discriminate.
      * now rewrite IH5.
    + rewrite E. cbn -[Ascii.eqb].
      split; [exact IH1|]. split; [now rewrite IH2|]. split; [|split].
      * intros c0 Hs Hu. now rewrite (IH3 c0 Hs Hu).
      * split.
        -- intros H. injection H as H. now apply IH4.
        -- intros H. f_equal. now apply IH4.
      * now rewrite IH5.
Qed.

Lemma replace_space_no_slash (s : string) :
  contains "/"%char (replace_space s) = contains "/"%char s.
Proof.
  destruct (replace_space_no_space s) as [_ [_ [H _]]].
  apply H; intros E; discriminate.
Qed.

Lemma split_slash_no_slash (current s : string) :
  contains "/"%char s = false ->
  split_slash current s = [(current ++ s)%string].
Proof.
  revert current. induction s as [|c s IH]; simpl; intros current H.
  - now rewrite append_nil_r.
  - apply orb_false_iff in H. destruct H as [Hc Hs]. rewrite Hc.
    rewrite (IH _ Hs). now rewrite append_assoc.
Qed.

Lemma starts_with_slash_contains (s : string) :
  contains "/"%char s = false -> starts_with_slash s = false.
Proof.
  destruct s as [|c s]; simpl; [reflexivity|].
  intros H. apply orb_false_iff in H. tauto.
Qed.

Lemma eqb_length_neq (s t : string) :
  String.length s <> String.length t -> String.eqb s t = false.
Proof.
  intros H. apply String.eqb_neq. intros ->. now apply H.
Qed.

(** The path object made of ["data"] and a file name without a slash
    prints as the two joined by one slash. *)
Lemma str_path_data_file (file : string) :
  contains "/"%char file = false ->
  2 <= String.length file ->
  str_path (posix_join "data" file) = ("data/" ++ file)%string.
Proof.
  intros Hno Hlen. unfold posix_join.
  rewrite (starts_with_slash_contains _ Hno). simpl.
  unfold str_path. simpl.
  rewrite (split_slash_no_slash _ _ Hno). simpl.
  rewrite (eqb_length_neq file "") by (simpl; lia).
  rewrite (eqb_length_neq file ".") by (simpl; lia).
  reflexivity.
Qed.

(** X2.  For a search string without a slash, the training-data file the
    pipeline saves is the file it points the external tool's [train]
    command at. *)
Theorem pipeline_trains_on_saved_csv (search : string) :
  contains "/"%char search = false ->
  option_value "--data-path" (pipeline_train_args search) =
    Some (pipeline_saved_csv search) /\
  pipeline_saved_csv search =
    ("data/" ++ replace_space search ++ "_training_data.csv")%string.
Proof.
  intros Hno.
  assert (Hsaved : pipeline_saved_csv search =
    ("data/" ++ replace_space search ++ "_training_data.csv")%string).
  { unfold pipeline_saved_csv, training_data_csv. apply str_path_data_file.
    - rewrite contains_append, replace_space_no_slash, Hno. reflexivity.
    - rewrite length_append. simpl. lia. }
  split; [|exact Hsaved]. rewrite Hsaved. reflexivity.
Qed.

(** The search string of the first worked example of the notebook. *)
Lemma pipeline_trains_on_saved_csv_witness :
  option_value "--data-path" (pipeline_train_args "Plasmodium falciparum") =
    Some (pipeline_saved_csv "Plasmodium falciparum") /\
  pipeline_saved_csv "Plasmodium falciparum" =
    "data/Plasmodium_falciparum_training_data.csv".
Proof.
  exact (pipeline_trains_on_saved_csv "Plasmodium falciparum" eq_refl).
Defined.

(** X3.  Whatever the search string, the stages of the pipeline hand each
    other the same names: the model directory [predict] loads is the one
    [train] saves to, the library [predict] scores is the file the Loader
    writes, the predictions file [predict] writes is the one the
    Visualizer reads, and none of these arguments contains a space put
    there by the search string. *)
Theorem pipeline_stage_names_agree (search : string) :
  option_value "--model-paths" (pipeline_predict_args search) =
    option_value "--save-dir" (pipeline_train_args search) /\
  option_value "--test-path" (pipeline_predict_args search) = Some hub_path /\
  option_value "--preds-path" (pipeline_predict_args search) =
    Some (predictions_path search) /\
  Forall (fun arg => contains " "%char arg = false)
         (pipeline_train_args search ++ pipeline_predict_args search).
Proof.
  destruct (replace_space_no_space search) as [Hsp _].
  repeat split.
  unfold pipeline_train_args, pipeline_predict_args, chemprop_train_args,
    chemprop_predict_args.
  repeat (apply Forall_cons || apply Forall_nil);
    try reflexivity;
    rewrite ?contains_append, ?Hsp; reflexivity.
Qed.

(** ** Training-Set Builder, continued *)

Lemma merge_left_In (left : list Activity.row) (right : list Molecule.row)
    (act : Activity.row) (mol : Molecule.row) :
  In act left -> In mol right ->
  Activity.molecule_chembl_id act = Molecule.molecule_chembl_id mol ->
  In (Merged.mk (Activity.molecule_chembl_id act) (Activity.standard_value act)
                (Molecule.canonical_smiles mol))
     (merge_left left right).
Proof.
  intros Hact Hmol Hid. unfold merge_left. apply in_flat_map.
  exists act. split; [exact Hact|]. unfold merged_rows_of.
  assert (Hf : In mol (filter
    (fun m => cell_eqb (Activity.molecule_chembl_id act)
                       (Molecule.molecule_chembl_id m)) right)).
  { apply filter_In. split; [exact Hmol | now apply cell_eqb_eq]. }
  destruct (filter _ right) as [|m0 ms] eqn:E; [destruct Hf|].
  rewrite <- E. apply in_map_iff. exists mol. split; [reflexivity|].
  now rewrite E.
Qed.

Lemma NoDup_map_In_eq {A B : Type} (f : A -> B) (l : list A) (x y : A) :
  NoDup (map f l) -> In x l -> In y l -> f x = f y -> x = y.
Proof.
  induction l as [|a l IH]; simpl; intros ND Hx Hy Hf; [destruct Hx|].
  inversion ND as [|? ? Hnotin ND']; subst.
  destruct Hx as [<-|Hx], Hy as [<-|Hy].
  - reflexivity.
  - exfalso. apply Hnotin. rewrite Hf. now apply in_map.
  - exfalso. apply Hnotin. rewrite <- Hf. now apply in_map.
  - now apply IH.
Qed.

(** X4.  No structure is lost: a measurement with a potency and an
    identifier, whose identifier has a structure string in the structure
    table, puts that structure string into the training set, on exactly
    one row. *)
Theorem create_training_data_keeps_every_structure
    (mean : list float -> float)
    (activity_data : list Activity.row) (molecule_data : list Molecule.row)
    (nm_cutoff : float)
    (act : Activity.row) (mol : Molecule.row) (id s : string) :
  In act activity_data -> In mol molecule_data ->
  Activity.molecule_chembl_id act = Some id ->
  Molecule.molecule_chembl_id mol = Some id ->
  PrimFloat.is_nan (Activity.standard_value act) = false ->
  Molecule.canonical_smiles mol = Some s ->
  exists printed table row,
    create_training_data mean activity_data molecule_data nm_cutoff =
      Ok (printed, table) /\
    In row table /\ Training.canonical_smiles row = s /\
    forall row', In row' table -> Training.canonical_smiles row' = s ->
                 row' = row.
Proof.
  intros Hact Hmol Ha Hm Hv Hs.
  pose proof (create_training_data_returns mean activity_data molecule_data
                nm_cutoff) as Hret.
  cbv zeta in Hret. rewrite training_table_eq in Hret.
  assert (Hjoined : In (Cleaned.mk (Activity.standard_value act) (Some s))
                       (joined activity_data molecule_data)).
  { unfold joined, drop_molecule_chembl_id, dropna. apply in_map_iff.
    exists (Merged.mk (Some id) (Activity.standard_value act) (Some s)).
    split; [reflexivity|]. apply filter_In. split.
    - rewrite <- Ha, <- Hs. apply merge_left_In; congruence.
    - unfold complete. simpl. now rewrite Hv. }
  assert (Hkey : In s (map fst (groupby_canonical_smiles
                                  (joined activity_data molecule_data)))).
  { apply groupby_keys. eexists. split; [exact Hjoined | reflexivity]. }
  apply in_map_iff in Hkey. destruct Hkey as [g [Hg Hin]].
  eexists. eexists.
  exists (Training.mk (fst g)
            (astype_int (PrimFloat.ltb (mean (snd g)) nm_cutoff))).
  split; [exact Hret|]. split; [|split].
  - apply in_map_iff. exists g. split; [reflexivity | exact Hin].
  - exact Hg.
  - intros row' Hrow' Hs'.
    destruct (groupby_spec (joined activity_data molecule_data)) as [ND _].
    eapply (NoDup_map_In_eq Training.canonical_smiles); try eassumption.
    + rewrite map_map. exact ND.
    + apply in_map_iff. exists g. split; [reflexivity | exact Hin].
    + simpl. congruence.
Qed.

(** Two measurements of one compound that has a structure. *)
Lemma create_training_data_keeps_every_structure_witness :
  exists printed table row,
    create_training_data Demo.mean Demo.two_measurements Demo.one_structure
      25 = Ok (printed, table) /\
    In row table /\
    Training.canonical_smiles row = "CC(=O)Oc1ccccc1C(=O)O" /\
    forall row', In row' table ->
                 Training.canonical_smiles row' = "CC(=O)Oc1ccccc1C(=O)O" ->
                 row' = row.
Proof.
  apply (create_training_data_keeps_every_structure Demo.mean
           Demo.two_measurements Demo.one_structure 25
           (Activity.mk (Some "CHEMBL25") 10)
           (Molecule.mk (Some "CHEMBL25") (Some "CC(=O)Oc1ccccc1C(=O)O"))
           "CHEMBL25" "CC(=O)Oc1ccccc1C(=O)O");
    try reflexivity; now left.
Defined.

Lemma insert_group_sorted (g : string * list float) gs :
  Sorted key_le gs -> Sorted key_le (insert_group g gs).
Proof.
  induction 1 as [|h gs Hs IH Hhd]; simpl.
  - repeat constructor.
  - destruct (String.leb (fst g) (fst h)) eqn:E.
    + constructor; [now constructor|]. now constructor.
    + constructor; [exact IH|].
      assert (Hhg : key_le h g).
      { unfold key_le. destruct (String.leb_total (fst g) (fst h)); congruence. }
      destruct gs as [|h' gs]; simpl.
      * now constructor.
      * destruct (String.leb (fst g) (fst h')); constructor; [exact Hhg|].
        now inversion Hhd.
Qed.

Lemma sort_groups_sorted gs : Sorted key_le (sort_groups gs).
Proof.
  induction gs as [|g gs IH]; simpl; [constructor|].
  now apply insert_group_sorted.
Qed.

Lemma leb_neq_ltb (s1 s2 : string) :
  String.leb s1 s2 = true -> s1 <> s2 -> String.ltb s1 s2 = true.
Proof.
  unfold String.leb, String.ltb. intros Hle Hne.
  destruct (String.compare s1 s2) eqn:E; try reflexivity; try discriminate.
  exfalso. apply Hne. now apply String.compare_eq_iff.
Qed.

Lemma Sorted_strict_keys gs :
  Sorted key_le gs -> NoDup (map fst gs) ->
  Sorted (fun g h => String.ltb (fst g) (fst h) = true) gs.
Proof.
  induction 1 as [|g gs Hs IH Hhd]; simpl; intros ND; [constructor|].
  inversion ND as [|? ? Hnotin ND']; subst.
  constructor; [now apply IH|].
  destruct Hhd as [|h gs' Hgh]; constructor.
  apply leb_neq_ltb; [exact Hgh|].
  intros Heq. apply Hnotin. left. now symmetry.
Qed.

Lemma Sorted_map {A B : Type} (R : B -> B -> Prop) (f : A -> B) (l : list A) :
  Sorted (fun x y => R (f x) (f y)) l -> Sorted R (map f l).
Proof.
  induction 1 as [|a l Hs IH Hhd]; simpl; constructor; [exact IH|].
  destruct Hhd; simpl; now constructor.
Qed.

(** X5.  The training set comes out in strictly increasing order of
    structure string (byte-wise lexicographic order), whatever the order
    of the input tables. *)
Theorem create_training_data_sorted_by_structure
    (mean : list float -> float)
    (activity_data : list Activity.row) (molecule_data : list Molecule.row)
    (nm_cutoff : float) :
  exists printed table,
    create_training_data mean activity_data molecule_data nm_cutoff =
      Ok (printed, table) /\
    Sorted (fun s1 s2 => String.ltb s1 s2 = true)
           (map Training.canonical_smiles table).
Proof.
  pose proof (create_training_data_returns mean activity_data molecule_data
                nm_cutoff) as Hret.
  cbv zeta in Hret. rewrite training_table_eq in Hret.
  eexists. eexists. split; [exact Hret|].
  rewrite map_map. simpl. apply Sorted_map.
  destruct (groupby_spec (joined activity_data molecule_data)) as [ND _].
  apply Sorted_strict_keys; [apply sort_groups_sorted | exact ND].
Qed.

Lemma wrap64_small (z : Z) :
  (- 2 ^ 63 <= z < 2 ^ 63)%Z -> Num.wrap64 z = z.
Proof.
  intros H. unfold Num.wrap64. rewrite Z.mod_small; lia.
Qed.

Lemma count_labels_scored (nm_cutoff : float) (mean : list float -> float)
    (groups : list (string * list float)) (l : Z) :
  count_label l
    (drop_standard_value (assign_activity nm_cutoff (agg_mean mean groups))) =
  Z.of_nat (length (filter (fun r => (Scored.activity r =? l)%Z)
                           (assign_activity nm_cutoff (agg_mean mean groups)))).
Proof.
  unfold count_label, drop_standard_value. f_equal.
  induction (assign_activity nm_cutoff (agg_mean mean groups)) as [|r df IH];
    simpl; [reflexivity|].
  destruct (Scored.activity r =? l)%Z; simpl; now rewrite IH.
Qed.

Lemma sum_activity_fold (df : list Scored.row) (acc : Z) :
  Forall (fun r => Scored.activity r = 0 \/ Scored.activity r = 1)%Z df ->
  (0 <= acc)%Z -> (acc + Z.of_nat (length df) < 2 ^ 63)%Z ->
  fold_left (fun acc r => Num.wrap64 (acc + Scored.activity r)) df acc =
  (acc + Z.of_nat (length (filter (fun r => (Scored.activity r =? 1)%Z) df)))%Z.
Proof.
  revert acc. induction df as [|r df IH]; intros acc Hall Hacc Hlen.
  - simpl. lia.
  - inversion Hall as [|? ? Hr Hall']; subst.
    cbn [fold_left filter]. cbn [length] in Hlen.
    rewrite wrap64_small by lia. rewrite IH by (try assumption; lia).
    destruct Hr as [Hr|Hr]; rewrite Hr; simpl; lia.
Qed.

Lemma scored_labels (nm_cutoff : float) (mean : list float -> float)
    (groups : list (string * list float)) :
  Forall (fun r => Scored.activity r = 0 \/ Scored.activity r = 1)%Z
         (assign_activity nm_cutoff (agg_mean mean groups)).
Proof.
  apply Forall_forall. intros r Hin. unfold assign_activity in Hin.
  apply in_map_iff in Hin. destruct Hin as [g [<- _]]. simpl.
  apply astype_int_01.
Qed.

Lemma count_zero_one (df : list Scored.row) :
  Forall (fun r => Scored.activity r = 0 \/ Scored.activity r = 1)%Z df ->
  length (filter (fun r => (Scored.activity r =? 1)%Z) df) +
  length (filter (fun r => (Scored.activity r =? 0)%Z) df) = length df.
Proof.
  induction 1 as [|r df Hr _ IH]; simpl; [reflexivity|].
  destruct Hr as [Hr|Hr]; rewrite Hr; simpl; lia.
Qed.

(** X6.  The report agrees with the table returned: for a table of fewer
    than 2^63 / 100 rows, the printed number of actives is the number of
    rows labelled 1, the printed number of inactives the number of rows
    labelled 0, the two add up to the number of rows, and the percentage
    is the binary64 quotient of 100 times the actives by the number of
    rows. *)
Theorem create_training_data_report_counts
    (mean : list float -> float)
    (activity_data : list Activity.row) (molecule_data : list Molecule.row)
    (nm_cutoff : float) (printed : list line) (table : list Training.row) :
  create_training_data mean activity_data molecule_data nm_cutoff =
    Ok (printed, table) ->
  (100 * Z.of_nat (length table) < 2 ^ 63)%Z ->
  let actives := count_label 1 table in
  let inactives := count_label 0 table in
  printed =
    [ [Lit "Creating training data"];
      [Lit "Actives: "; Str (Num.NpInt64 actives); Lit " (";
       Fmt2f (Num.NpFloat64
                (PrimFloat.div (Num.float_of_Z (100 * actives))
                               (Num.float_of_Z (Z.of_nat (length table)))));
       Lit "%), Inactives: "; Str (Num.NpInt64 inactives)] ] /\
  (actives + inactives = Z.of_nat (length table))%Z.
Proof.
  rewrite create_training_data_returns. cbv zeta.
  intros H Hlen.
  pose proof (f_equal (fun r => match r with
                                | Ok x => fst x
                                | Raise _ => []
                                end) H) as Hp.
  pose proof (f_equal (fun r => match r with
                                | Ok x => snd x
                                | Raise _ => []
                                end) H) as Ht.
  cbv beta iota in Hp, Ht. cbn [fst snd] in Hp, Ht. clear H.
  subst printed table.
  pose proof (scored_labels nm_cutoff mean
    (groupby_canonical_smiles (joined activity_data molecule_data))) as Hlab.
  rewrite !count_labels_scored.
  unfold drop_standard_value in *. rewrite length_map in *.
  set (scored := assign_activity nm_cutoff _) in *.
  pose proof (count_zero_one scored Hlab) as Hsum.
  pose proof (eq_refl : (2 ^ 63 = 9223372036854775808)%Z) as H63.
  unfold sum_activity. rewrite (sum_activity_fold scored 0 Hlab) by lia.
  rewrite Z.add_0_l.
  set (a1 := length (filter (fun r => (Scored.activity r =? 1)%Z) scored)) in *.
  set (a0 := length (filter (fun r => (Scored.activity r =? 0)%Z) scored)) in *.
  unfold Num.mul, Num.sub, Num.arith, len. cbn [Num.is_integer Num.is_numpy
    Num.to_Z Num.to_float andb orb].
  rewrite !wrap64_small by lia.
  split; [|lia].
  replace (Z.of_nat (length scored) - Z.of_nat a1)%Z with (Z.of_nat a0) by lia.
  reflexivity.
Qed.

(** Two measurements of one structure: no active, one inactive. *)
Lemma create_training_data_report_counts_witness :
  exists printed table,
    create_training_data Demo.mean Demo.two_measurements Demo.one_structure
      25 = Ok (printed, table) /\
    (count_label 1 table + count_label 0 table = Z.of_nat (length table))%Z.
Proof.
  eexists. eexists. split; [reflexivity|].
  refine (proj2 (create_training_data_report_counts Demo.mean
                   Demo.two_measurements Demo.one_structure 25 _ _
                   eq_refl _)).
  vm_compute. reflexivity.
Defined.

Lemma SFltb_SFleb_trans (a b c : spec_float) :
  SFltb a b = true -> SFleb b c = true -> SFltb a c = true.
Proof.
  unfold SFltb, SFleb.
  destruct a as [sa|sa| |sa ma ea], b as [sb|sb| |sb mb eb],
           c as [sc|sc| |sc mc ec]; simpl; auto; try discriminate;
    try (destruct sa; simpl; auto; try discriminate; fail);
    try (destruct sb; simpl; auto; try discriminate; fail);
    try (destruct sc; simpl; auto; try discriminate; fail);
    try (destruct sa, sb; simpl; auto; try discriminate; fail);
    try (destruct sa, sc; simpl; auto; try discriminate; fail);
    try (destruct sb, sc; simpl; auto; try discriminate; fail);
    try (destruct sa, sb, sc; simpl; auto; try discriminate; fail).
  all: pos_compare.
  all: destruct sa, sb, sc; simpl; auto; try discriminate.
  all: destruct (Z.compare_spec ea eb), (Z.compare_spec eb ec),
                (Z.compare_spec ea ec);
       simpl; auto; try discriminate; try lia.
  all: destruct (Pos.compare_spec ma mb), (Pos.compare_spec mb mc),
                (Pos.compare_spec ma mc);
       simpl; auto; try discriminate; try lia.
Qed.

Lemma ltb_leb_trans (x c1 c2 : float) :
  PrimFloat.ltb x c1 = true -> PrimFloat.leb c1 c2 = true ->
  PrimFloat.ltb x c2 = true.
Proof. rewrite !ltb_spec, leb_spec. apply SFltb_SFleb_trans. Qed.

(** X7.  Raising the cutoff changes no structure of the training set and
    turns no active into an inactive: for cutoffs [c1 <= c2] the two
    training sets list the same structure strings in the same order, and
    row by row the label under [c1] is at most the label under [c2]. *)
Theorem create_training_data_cutoff_monotone
    (mean : list float -> float)
    (activity_data : list Activity.row) (molecule_data : list Molecule.row)
    (c1 c2 : float) :
  PrimFloat.leb c1 c2 = true ->
  exists printed1 table1 printed2 table2,
    create_training_data mean activity_data molecule_data c1 =
      Ok (printed1, table1) /\
    create_training_data mean activity_data molecule_data c2 =
      Ok (printed2, table2) /\
    map Training.canonical_smiles table1 =
      map Training.canonical_smiles table2 /\
    Forall2 (fun r1 r2 => (Training.activity r1 <= Training.activity r2)%Z)
            table1 table2.
Proof.
  intros Hle.
  pose proof (create_training_data_returns mean activity_data molecule_data c1)
    as H1.
  pose proof (create_training_data_returns mean activity_data molecule_data c2)
    as H2.
  cbv zeta in H1, H2. rewrite training_table_eq in H1, H2.
  do 4 eexists. split; [exact H1|]. split; [exact H2|]. split.
  - rewrite !map_map. reflexivity.
  - clear H1 H2.
    induction (groupby_canonical_smiles (joined activity_data molecule_data))
      as [|g gs IH]; simpl; constructor; [|exact IH].
    simpl. destruct (PrimFloat.ltb (mean (snd g)) c1) eqn:E.
    + now rewrite (ltb_leb_trans _ _ _ E Hle).
    + destruct (PrimFloat.ltb (mean (snd g)) c2); simpl; lia.
Qed.

(** The two cutoffs of the worked examples of the notebook. *)
Lemma create_training_data_cutoff_monotone_witness :
  exists printed1 table1 printed2 table2,
    create_training_data Demo.mean Demo.two_measurements Demo.one_structure
      25 = Ok (printed1, table1) /\
    create_training_data Demo.mean Demo.two_measurements Demo.one_structure
      500 = Ok (printed2, table2) /\
    map Training.canonical_smiles table1 =
      map Training.canonical_smiles table2 /\
    Forall2 (fun r1 r2 => (Training.activity r1 <= Training.activity r2)%Z)
            table1 table2.
Proof.
  exact (create_training_data_cutoff_monotone Demo.mean Demo.two_measurements
           Demo.one_structure 25 500 eq_refl).
Defined.

(** ** Reference Library Loader, continued *)

(** X8.  A call touches nothing but the library file and the one URL: the
    files at every other path are as before, the requests grow by at most
    the one request of the library URL, and a call that raises has written
    no file at all (it did issue the request). *)
Theorem download_drug_repurposing_hub_frame
    {Mol : Type} (MolFromSmiles : string -> option Mol)
    (MolToSmiles : Mol -> string) {Meta : Type}
    (read_csv : string -> result (list (Hub.row Meta)))
    (w : World (list (Hub.row Meta))) :
  let res :=
    download_drug_repurposing_hub MolFromSmiles MolToSmiles read_csv w in
  (forall path, path <> hub_path -> files (fst res) path = files w path) /\
  (requests (fst res) = requests w \/
   requests (fst res) = requests w ++ [hub_url]) /\
  (forall e, snd res = Raise e ->
             files (fst res) = files w /\
             requests (fst res) = requests w ++ [hub_url]).
Proof.
  cbv zeta. unfold download_drug_repurposing_hub.
  destruct (exists_ w hub_path).
  - simpl. repeat split; auto. discriminate.
  - destruct (read_csv hub_url) as [raw|e0].
    + destruct (apply_canon_smiles MolFromSmiles MolToSmiles raw)
        as [canon|e1].
      * cbn [fst snd]. repeat split.
        -- intros path Hpath. cbn [files print write_file request].
           apply String.eqb_neq in Hpath. now rewrite Hpath.
        -- right. reflexivity.
        -- discriminate.
      * simpl. repeat split; auto.
    + simpl. repeat split; auto.
Qed.

Lemma unique_NoDup (seen col : list cell) :
  NoDup col -> (forall c, In c col -> ~ In c seen) -> unique seen col = col.
Proof.
  revert seen. induction col as [|c col IH]; simpl; intros seen ND Hdisj;
    [reflexivity|].
  inversion ND as [|? ? Hnotin ND']; subst.
  assert (E : existsb (cell_eqb c) seen = false).
  { apply seen_false. apply Hdisj. now left. }
  rewrite E. f_equal. apply IH; [exact ND'|].
  intros c' Hc' [<-|Hs]; [contradiction|].
  apply (Hdisj c'); [now right | exact Hs].
Qed.

(** X9.  When the library is downloaded, the number printed as
    [Number of unique SMILES] is the number of rows of the file
    written. *)
Theorem download_drug_repurposing_hub_prints_row_count
    {Mol : Type} (MolFromSmiles : string -> option Mol)
    (MolToSmiles : Mol -> string) {Meta : Type}
    (read_csv : string -> result (list (Hub.row Meta)))
    (w : World (list (Hub.row Meta))) :
  exists_ w hub_path = false ->
  let res :=
    download_drug_repurposing_hub MolFromSmiles MolToSmiles read_csv w in
  snd res = Ok tt ->
  exists library,
    files (fst res) hub_path = Some library /\
    stdout (fst res) =
      stdout w ++
      [ [Lit "Drug Repurposing Hub dataset downloaded and processed."] ] ++
      [ [Lit "Number of unique SMILES: ";
         Str (Num.PyInt (Z.of_nat (length library)))] ].
Proof.
  intros Hex. cbv zeta. unfold download_drug_repurposing_hub. rewrite Hex.
  destruct (read_csv hub_url) as [raw|e0]; [|discriminate].
  destruct (apply_canon_smiles MolFromSmiles MolToSmiles raw) as [canon|e1];
    [|discriminate].
  intros _. exists (drop_duplicates (dropna_smiles canon)). split.
  - cbn [fst files print write_file]. now rewrite String.eqb_refl.
  - cbn [fst stdout print write_file request].
    rewrite unique_NoDup.
    + rewrite length_map, <- app_assoc. reflexivity.
    + apply drop_duplicates_seen_NoDup.
    + intros c _ [].
Qed.

(** A fresh world and a raw table of four rows, two of which survive. *)
Lemma download_drug_repurposing_hub_prints_row_count_witness :
  exists library,
    files (fst (download_drug_repurposing_hub Demo.MolFromSmiles
                  Demo.MolToSmiles Demo.online_read_csv Demo.fresh_world))
          hub_path = Some library /\
    stdout (fst (download_drug_repurposing_hub Demo.MolFromSmiles
                   Demo.MolToSmiles Demo.online_read_csv Demo.fresh_world)) =
      stdout Demo.fresh_world ++
      [ [Lit "Drug Repurposing Hub dataset downloaded and processed."] ] ++
      [ [Lit "Number of unique SMILES: ";
         Str (Num.PyInt (Z.of_nat (length library)))] ].
Proof.
  exact (download_drug_repurposing_hub_prints_row_count Demo.MolFromSmiles
           Demo.MolToSmiles Demo.online_read_csv Demo.fresh_world
           eq_refl eq_refl).
Defined.

(** ** Bioactivity Fetcher, continued *)

Lemma to_numeric_raises (parse_float : string -> option float)
    (col : list cell) (e : exn) :
  to_numeric parse_float col = Raise e ->
  e = ValueError /\
  exists s, In (Some s) col /\ parse_float s = None.
Proof.
  induction col as [|c col IH]; simpl; [discriminate|].
  destruct c as [s|].
  - destruct (parse_float s) as [x|] eqn:E.
    + destruct (to_numeric parse_float col) as [xs|e']; [discriminate|].
      simpl. intros H. injection H as ->.
      destruct (IH eq_refl) as [He [s' [Hin Hs']]].
      split; [exact He|]. exists s'. split; [now right | exact Hs'].
    + intros H. injection H as <-. split; [reflexivity|].
      exists s. split; [now left | exact E].
  - destruct (to_numeric parse_float col) as [xs|e']; [discriminate|].
    simpl. intros H. injection H as ->.
    destruct (IH eq_refl) as [He [s' [Hin Hs']]].
    split; [exact He|]. exists s'. split; [now right | exact Hs'].
Qed.

(** X10.  The outcomes of [get_target_activity], all of them decided by
    the first 100 matching records: [KeyError] exactly when one of the two
    labels is the key of none of them; otherwise [ValueError] exactly when
    the potency text of one of them is no number; otherwise a table with
    one row per record.  No other exception is raised, and a record past
    the hundredth never makes the call fail. *)
Theorem get_target_activity_outcomes
    (activity_filter : string -> string -> string -> string -> list string ->
                       list record)
    (parse_float : string -> option float) (chembl_id : string) :
  let records :=
    firstn 100 (activity_filter chembl_id "IC50" "=" "nM"
                  ["molecule_chembl_id"; "standard_value"]) in
  let labelled :=
    mem "molecule_chembl_id" (frame_columns records)
    && mem "standard_value" (frame_columns records) in
  match get_target_activity activity_filter parse_float chembl_id with
  | Raise KeyError => labelled = false
  | Raise ValueError =>
      labelled = true /\
      exists r, In r records /\ unparsable parse_float r = true
  | Raise _ => False
  | Ok (_, table) =>
      labelled = true /\
      Forall (fun r => unparsable parse_float r = false) records /\
      length table = length records
  end.
Proof.
  cbv zeta. unfold get_target_activity, select_id_value.
  set (records := firstn 100 _).
  destruct (mem "molecule_chembl_id" (frame_columns records)
            && mem "standard_value" (frame_columns records));
    [|reflexivity].
  cbn [bind]. rewrite map_map. cbn [snd].
  destruct (to_numeric parse_float
              (map (fun r => record_get r "standard_value") records))
    as [xs|e] eqn:E.
  - cbn [bind]. split; [reflexivity|]. split.
    + apply to_numeric_ok in E. apply Forall_forall. intros r Hr.
      unfold unparsable.
      destruct (record_get r "standard_value") as [s|] eqn:Er; [|reflexivity].
      assert (Hx : exists x, parse_float s = Some x).
      { clear -E Hr Er. revert xs E.
        induction records as [|r0 records IH]; intros xs E; [destruct Hr|].
        simpl in E. inversion E as [|c x col xs' Hc Hrest]; subst.
        destruct Hr as [->|Hr]; [|now apply (IH Hr xs')].
        rewrite Er in Hc. now exists x. }
      destruct Hx as [x ->]. reflexivity.
    + apply to_numeric_ok in E. apply Forall2_length in E.
      rewrite length_map in *. rewrite length_combine, !length_map.
      rewrite <- E. apply Nat.min_id.
  - cbn [bind]. apply to_numeric_raises in E.
    destruct E as [-> [s [Hin Hs]]]. split; [reflexivity|].
    apply in_map_iff in Hin. destruct Hin as [r [Hr Hin]].
    exists r. split; [exact Hin|]. unfold unparsable. now rewrite Hr, Hs.
Qed.

(** ** Target Resolver and Molecule Fetcher *)



Lemma add_keys_In (cols : list string) (r : record) (k : string) :
  In k (add_keys cols r) -> In k cols \/ In k (map fst r).
Proof.
  unfold add_keys. revert cols.
  induction (map fst r) as [|k0 ks IH]; simpl; intros cols H; [now left|].
  apply IH in H. destruct H as [H|H]; [|right; now right].
  destruct (mem k0 cols); [now left|].
  apply in_app_or in H. destruct H as [H|[<-|[]]]; [now left|].
  right. now left.
Qed.

Lemma frame_columns_In (records : list record) (k : string) :
  In k (frame_columns records) ->
  exists r, In r records /\ In k (map fst r).
Proof.
  unfold frame_columns.
  assert (H : forall cols,
    In k (fold_left add_keys records cols) ->
    In k cols \/ exists r, In r records /\ In k (map fst r)).
  { induction records as [|r records IH]; simpl; intros cols Hin;
      [now left|].
    apply IH in Hin. destruct Hin as [Hin|[r' [Hr' Hk]]].
    - apply add_keys_In in Hin. destruct Hin as [Hin|Hin]; [now left|].
      right. exists r. split; [now left | exact Hin].
    - right. exists r'. split; [now right | exact Hk]. }
  intros Hin. destruct (H [] Hin) as [[]|Hex]. exact Hex.
Qed.

(** The flattened record of a molecule. *)
Lemma normalise_molecule_json (m : cell * option structures) :
  normalise_record (molecule_json m) =
  match snd m with
  | None =>
      [("molecule_chembl_id", fst m); ("molecule_structures", None)]
  | Some st =>
      [ ("molecule_chembl_id", fst m);
        ("molecule_structures.canonical_smiles", st_canonical_smiles st);
        ("molecule_structures.molfile", st_molfile st);
        ("molecule_structures.standard_inchi", st_standard_inchi st);
        ("molecule_structures.standard_inchi_key", st_standard_inchi_key st) ]
  end.
Proof.
  destruct m as [[id|] [[[cs|] [mf|] [si|] [sk|]]|]]; reflexivity.
Qed.

Lemma molecule_row_of_record (m : cell * option structures) :
  Molecule.mk
    (record_get (normalise_record (molecule_json m)) "molecule_chembl_id")
    (record_get (normalise_record (molecule_json m))
       "molecule_structures.canonical_smiles") =
  molecule_row m.
Proof.
  rewrite normalise_molecule_json. unfold molecule_row.
  destruct m as [id [st|]]; reflexivity.
Qed.

(** X12.  The outcomes of [get_molecule_data] on the records of the
    service: when none of the molecules found has a structure object, and
    in particular when none is found, [KeyError]; otherwise one row per
    molecule found, in order, with a missing [canonical_smiles] for each
    molecule without structure object. *)
Theorem get_molecule_data_outcomes
    (molecule_filter : list cell -> list string -> list (list (string * json)))
    (molecule_chembl_ids : list cell)
    (found : list (cell * option structures)) :
  molecule_filter molecule_chembl_ids
    ["molecule_chembl_id"; "molecule_structures"] = map molecule_json found ->
  get_molecule_data molecule_filter molecule_chembl_ids =
  if existsb has_structures found then
    Ok ([ [Lit "Getting molecule data for ";
           Str (Num.PyInt (Z.of_nat (length molecule_chembl_ids)));
           Lit " ChEMBL IDs"] ],
        map molecule_row found)
  else Raise KeyError.
Proof.
  intros Hfound. unfold get_molecule_data. rewrite Hfound.
  unfold select_id_smiles. rewrite !map_map.
  set (records := map (fun m => normalise_record (molecule_json m)) found).
  destruct (existsb has_structures found) eqn:E.
  - apply existsb_exists in E. destruct E as [m [Hm Hst]].
    assert (Hr : In (normalise_record (molecule_json m)) records)
      by (unfold records;
          now apply (in_map (fun m => normalise_record (molecule_json m)))).
    rewrite (frame_columns_key records _ "molecule_chembl_id" Hr).
    2:{ rewrite normalise_molecule_json. destruct (snd m); now left. }
    rewrite (frame_columns_key records _
               "molecule_structures.canonical_smiles" Hr).
    2:{ rewrite normalise_molecule_json. unfold has_structures in Hst.
        destruct (snd m); [right; now left | discriminate]. }
    cbn [andb bind]. unfold records.
    do 2 f_equal. apply map_ext. intros m'. apply molecule_row_of_record.
  - assert (Hno : mem "molecule_structures.canonical_smiles"
                      (frame_columns records) = false).
    { apply mem_false. intros Hin. apply frame_columns_In in Hin.
      destruct Hin as [r [Hr Hk]]. unfold records in Hr.
      apply in_map_iff in Hr. destruct Hr as [m [<- Hm]].
      assert (Hst : has_structures m = false).
      { destruct (has_structures m) eqn:Hs; [|reflexivity].
        assert (existsb has_structures found = true)
          by (apply existsb_exists; now exists m).
        congruence. }
      rewrite normalise_molecule_json in Hk. unfold has_structures in Hst.
      destruct (snd m); [discriminate|].
      simpl in Hk. destruct Hk as [Hk|[Hk|[]]]; discriminate. }
    rewrite Hno, andb_false_r. reflexivity.
Qed.

(** Two molecules found, the second without structure object. *)
Lemma get_molecule_data_outcomes_witness :
  get_molecule_data Demo.molecule_filter [Some "CHEMBL25"; Some "CHEMBL112"] =
  Ok ([ [Lit "Getting molecule data for "; Str (Num.PyInt 2);
         Lit " ChEMBL IDs"] ],
      [ Molecule.mk (Some "CHEMBL25") (Some "CC(=O)Oc1ccccc1C(=O)O");
        Molecule.mk (Some "CHEMBL112") None ]).
Proof.
  exact (get_molecule_data_outcomes Demo.molecule_filter
           [Some "CHEMBL25"; Some "CHEMBL112"] Demo.two_molecules eq_refl).
Defined.
